(** * Smart-Home IoT Simulator: device model and automation engine

    A shallow embedding of [devices/smart_devices.py] and
    [utils/automation.py].

    - Every Python class is a module holding a record [t] of the instance
      attributes and one function per method.  A method that mutates
      [self] returns the new object, paired with the returned value when
      the method returns one.  A subclass record holds the attributes of
      [SmartDevice] in its field [base].
    - Python [int]s are [Z].  A stored quantity that the program turns
      into a [float] ([temperature], [target_temp], [light_level]) is a
      [number]: an int, or a finite float given by its rational value.
      Adding or subtracting a float literal rounds to binary64 as the
      machine does.
    - The registry is the list of the devices in insertion order; each
      entry is an object of its own, so a position in the list stands for
      the identity of the object there.  The same holds for the rule list.
      A loop that mutates the objects of a list in place is a function from
      the list to the list it leaves.
    - The wall clock is an oracle queried in sequence (see [Clock]).  *)

From Stdlib Require Import ZArith QArith Qabs String Ascii List Bool Lia Lqa.
From Stdlib Require Import DecimalString.
Import ListNotations.

Local Open Scope string_scope.
Local Open Scope Z_scope.

(** ** Python numbers *)

(** A Python number as the simulator stores it: an [int], or a finite
    [float] given by the rational it denotes (infinities and NaN are not
    values of this type). *)
Inductive number : Type :=
| PyInt (z : Z)
| PyFloat (q : Q).

Definition num_val (x : number) : Q :=
  match x with
  | PyInt z => inject_Z z
  | PyFloat q => q
  end.

(** [x < y] on numbers; Python compares an int and a float by value. *)
Definition num_ltb (x y : number) : bool :=
  match (num_val x ?= num_val y)%Q with
  | Lt => true
  | _ => false
  end.

(** [x > y] on numbers. *)
Definition num_gtb (x y : number) : bool := num_ltb y x.

(** *** binary64

    A Python [float] is an IEEE 754 binary64 number: a multiple of
    [2^-1074] with at most 53 significant bits, below [2^1024] in
    magnitude.  The result of an arithmetic operation is the exact result
    rounded to the nearest such number, to the one with the even mantissa
    on a tie. *)

(** Whether [q] is a binary64 number. *)
Definition representable (q : Q) : bool :=
  let a := Z.abs (Qnum q) in
  let d := Zpos (Qden q) in
  let scaled := a * 2 ^ 1074 in
  (scaled mod d =? 0)
  && (let m := scaled / d in m mod 2 ^ Z.max 0 (Z.log2 m - 52) =? 0)
  && (a <? d * 2 ^ 1024).

(** [n / d] rounded to the nearest integer, to the even one on a tie
    ([0 <= n], [0 < d]). *)
Definition round_half_even (n d : Z) : Z :=
  let q := n / d in
  let r := 2 * (n mod d) in
  if r <? d then q
  else if d <? r then q + 1
  else if Z.even q then q else q + 1.

(** The [e] with [2^e <= a / d < 2^(e+1)] ([0 < a], [0 < d]). *)
Definition binade (a d : Z) : Z :=
  let e := Z.log2 a - Z.log2 d in
  if (if 0 <=? e then d * 2 ^ e <=? a else d <=? a * 2 ^ (- e))
  then e else e - 1.

(** [q] rounded to 53 significant bits, or to a multiple of [2^-1074]
    where that is coarser. *)
Definition nearest_binary64 (q : Q) : Q :=
  let a := Z.abs (Qnum q) in
  let d := Zpos (Qden q) in
  if a =? 0 then 0%Q
  else
    let e := Z.max (binade a d - 52) (-1074) in
    let m := if 0 <=? e then round_half_even a (d * 2 ^ e)
             else round_half_even (a * 2 ^ (- e)) d in
    (inject_Z (Z.sgn (Qnum q) * m) * (2 ^ e))%Q.

(** Rounding to binary64, in lowest terms: a binary64 number is its own
    rounding.  (A value that rounds to [2^1024] or beyond is an overflow in
    Python; it is outside what [number] holds, and adding 0.5 to a float
    never produces one.) *)
Definition round_binary64 (q : Q) : Q :=
  Qred (if representable q then q else nearest_binary64 q).

(** The float operand Python makes of [x] in [x + 0.5]: a float is taken
    as it is, an int is converted, which rounds. *)
Definition to_float (x : number) : Q :=
  match x with
  | PyInt z => round_binary64 (inject_Z z)
  | PyFloat q => q
  end.

(** [x + f] and [x - f] for a float literal [f]: the binary64 sum and
    difference. *)
Definition num_add_float (x : number) (f : Q) : number :=
  PyFloat (round_binary64 (to_float x + f)).

Definition num_sub_float (x : number) (f : Q) : number :=
  PyFloat (round_binary64 (to_float x - f)).

(** [x] is [k] half degrees, of magnitude below [2^52]. *)
Definition is_half_degrees (x : number) (k : Z) : Prop :=
  Z.abs k < 2 ^ 53 /\ (num_val x == inject_Z k * (1 # 2))%Q.

(** [a / b], Python's true division of two ints: a float, here by the
    exact quotient (Python stores its rounding to binary64). *)
Definition int_truediv (a b : Z) : number :=
  PyFloat (Qred (inject_Z a / inject_Z b)).

(** [str(z)] for an int. *)
Definition str_int (z : Z) : string := NilZero.string_of_int (Z.to_int z).

(** [max(lo, min(hi, x))], the clamp idiom of the mutators. *)
Definition clamp (lo hi x : Z) : Z := Z.max lo (Z.min hi x).

(** ** devices/smart_devices.py *)

Inductive DeviceType : Type :=
| LIGHT | THERMOSTAT | CAMERA | DOOR | WINDOW | FAN.

Definition DeviceType_value (k : DeviceType) : string :=
  match k with
  | LIGHT => "light"
  | THERMOSTAT => "thermostat"
  | CAMERA => "camera"
  | DOOR => "door"
  | WINDOW => "window"
  | FAN => "fan"
  end.

Inductive DeviceStatus : Type := ON | OFF.

Definition DeviceStatus_value (s : DeviceStatus) : string :=
  match s with
  | ON => "ON"
  | OFF => "OFF"
  end.

(** [f"{device_id} ({room}): "], the prefix shared by every summary. *)
Definition summary_prefix (device_id room : string) : string :=
  device_id ++ " (" ++ room ++ "): ".

Module SmartDevice.

Record t : Type := mk {
  device_id : string;
  status : bool;
  device_type : DeviceType;
  room : string;
  color : string
}.

(** The per-instance [status_color] dict; no method ever writes to it. *)
Definition status_color (on : bool) : string :=
  if on then "#4CAF50" else "#F44336".

Definition init (device_id : string) (device_type : DeviceType)
    (room : string) : t :=
  {| device_id := device_id;
     status := false;
     device_type := device_type;
     room := room;
     color := "#cccccc" |}.

Definition set_status (on : bool) (self : t) : t :=
  {| device_id := device_id self;
     status := on;
     device_type := device_type self;
     room := room self;
     color := color self |}.

Definition set_color (c : string) (self : t) : t :=
  {| device_id := device_id self;
     status := status self;
     device_type := device_type self;
     room := room self;
     color := c |}.

Definition toggle_status (self : t) : bool * t :=
  let self := set_status (negb (status self)) self in
  (status self, self).

Definition get_status_color (self : t) : string :=
  status_color (status self).

Definition get_status_text (self : t) : string :=
  if status self then "ON" else "OFF".

Definition get_details (self : t) : string :=
  summary_prefix (device_id self) (room self) ++ get_status_text self.

End SmartDevice.

Module SmartLight.

Record t : Type := mk {
  base : SmartDevice.t;
  brightness : Z;
  color_temp : Z
}.

(** The [light_colors] dict, in insertion order. *)
Definition light_colors : list (Z * string) :=
  [ (3000, "#FF9E80"); (4000, "#FFECB3"); (5000, "#E3F2FD");
    (6000, "#E1F5FE") ].

(** [min(keys, key=lambda x: abs(x - color_temp))]: the first entry at the
    least distance (a later entry wins only when strictly closer). *)
Fixpoint closest (ct : Z) (best : Z * string) (rest : list (Z * string))
    : Z * string :=
  match rest with
  | [] => best
  | kv :: rest' =>
      if Z.abs (fst kv - ct) <? Z.abs (fst best - ct)
      then closest ct kv rest'
      else closest ct best rest'
  end.

Definition with_base (b : SmartDevice.t) (self : t) : t :=
  {| base := b; brightness := brightness self;
     color_temp := color_temp self |}.

Definition update_light_color (self : t) : t :=
  let closest_temp :=
    closest (color_temp self) (hd (3000, "#FF9E80") light_colors)
            (tl light_colors) in
  with_base (SmartDevice.set_color (snd closest_temp) (base self)) self.

Definition init (device_id room : string) (color_temp : Z) : t :=
  update_light_color
    {| base := SmartDevice.init device_id LIGHT room;
       brightness := 0;
       color_temp := color_temp |}.

Definition set_brightness (b : Z) (self : t) : t :=
  let self := {| base := base self; brightness := b;
                 color_temp := color_temp self |} in
  if brightness self >? 0 then
    with_base (SmartDevice.set_status true (base self)) self
  else if brightness self =? 0 then
    with_base (SmartDevice.set_status false (base self)) self
  else self.

Definition set_color_temp (temp : Z) (self : t) : t :=
  update_light_color
    {| base := base self; brightness := brightness self;
       color_temp := clamp 3000 6000 temp |}.

Definition get_details (self : t) : string :=
  if negb (SmartDevice.status (base self)) then
    summary_prefix (SmartDevice.device_id (base self))
                   (SmartDevice.room (base self)) ++ "OFF"
  else
    summary_prefix (SmartDevice.device_id (base self))
                   (SmartDevice.room (base self))
      ++ str_int (brightness self) ++ "% - "
      ++ str_int (color_temp self) ++ "K".

End SmartLight.

(** [str.capitalize()] on ASCII text: first character upper-cased, the
    others lower-cased. *)
Definition ascii_upper (c : ascii) : ascii :=
  let n := nat_of_ascii c in
  if (97 <=? n)%nat && (n <=? 122)%nat then ascii_of_nat (n - 32) else c.

Definition ascii_lower (c : ascii) : ascii :=
  let n := nat_of_ascii c in
  if (65 <=? n)%nat && (n <=? 90)%nat then ascii_of_nat (n + 32) else c.

Fixpoint str_lower (s : string) : string :=
  match s with
  | EmptyString => EmptyString
  | String c s' => String (ascii_lower c) (str_lower s')
  end.

Definition capitalize (s : string) : string :=
  match s with
  | EmptyString => EmptyString
  | String c s' => String (ascii_upper c) (str_lower s')
  end.

(** [f"{x}"] for a stored number: an int prints as its decimal digits; how
    Python prints a float is the parameter [format_float]. *)
Definition format_number (format_float : Q -> string) (x : number) : string :=
  match x with
  | PyInt z => str_int z
  | PyFloat q => format_float q
  end.

(** The four bytes between the temperature and [C] in the source literal of
    [Thermostat.get_details]. *)
Definition degree_bytes : string :=
  String (ascii_of_nat 195) (String (ascii_of_nat 130)
    (String (ascii_of_nat 194) (String (ascii_of_nat 176) EmptyString))).

Module Thermostat.

Record t : Type := mk {
  base : SmartDevice.t;
  temperature : number;
  target_temp : number;
  mode : string;
  humidity : Z
}.

(** Keys of the [temp_colors] dict. *)
Inductive band : Type := cold | cool | neutral | warm | hot.

Definition temp_colors (b : band) : string :=
  match b with
  | cold => "#81D4FA"
  | cool => "#B3E5FC"
  | neutral => "#E1F5FE"
  | warm => "#FFE0B2"
  | hot => "#FFCCBC"
  end.

Definition with_base (b : SmartDevice.t) (self : t) : t :=
  {| base := b; temperature := temperature self;
     target_temp := target_temp self; mode := mode self;
     humidity := humidity self |}.

Definition set_color (c : string) (self : t) : t :=
  with_base (SmartDevice.set_color c (base self)) self.

Definition update_temp_color (self : t) : t :=
  if num_ltb (temperature self) (PyInt 16) then
    set_color (temp_colors cold) self
  else if num_ltb (temperature self) (PyInt 19) then
    set_color (temp_colors cool) self
  else if num_ltb (temperature self) (PyInt 23) then
    set_color (temp_colors neutral) self
  else if num_ltb (temperature self) (PyInt 26) then
    set_color (temp_colors warm) self
  else
    set_color (temp_colors hot) self.

Definition init (device_id room : string) : t :=
  update_temp_color
    {| base := SmartDevice.init device_id THERMOSTAT room;
       temperature := PyInt 20;
       target_temp := PyInt 20;
       mode := "heat";
       humidity := 50 |}.

Definition set_temperature (temperature : number) (self : t) : t :=
  let self := {| base := base self;
                 temperature := Thermostat.temperature self;
                 target_temp := temperature;
                 mode := mode self;
                 humidity := humidity self |} in
  with_base (SmartDevice.set_status true (base self)) self.

Definition set_mode (m : string) (self : t) : t :=
  if existsb (String.eqb m) ["heat"; "cool"; "auto"] then
    {| base := base self; temperature := temperature self;
       target_temp := target_temp self; mode := m;
       humidity := humidity self |}
  else self.

Definition with_temperature (x : number) (self : t) : t :=
  {| base := base self; temperature := x;
     target_temp := target_temp self; mode := mode self;
     humidity := humidity self |}.

Definition update_current_temp (self : t) : t :=
  let self :=
    if num_ltb (temperature self) (target_temp self) then
      with_temperature (num_add_float (temperature self) (1 # 2)) self
    else if num_gtb (temperature self) (target_temp self) then
      with_temperature (num_sub_float (temperature self) (1 # 2)) self
    else self in
  update_temp_color self.

Definition get_details (format_float : Q -> string) (self : t) : string :=
  if negb (SmartDevice.status (base self)) then
    summary_prefix (SmartDevice.device_id (base self))
                   (SmartDevice.room (base self)) ++ "OFF"
  else
    summary_prefix (SmartDevice.device_id (base self))
                   (SmartDevice.room (base self))
      ++ format_number format_float (temperature self)
      ++ degree_bytes ++ "C - Mode: " ++ capitalize (mode self).

End Thermostat.

Module SecurityCamera.

Record t : Type := mk {
  base : SmartDevice.t;
  motion_detected : bool;
  recording : bool;
  battery_level : Z
}.

(** The [motion_color] dict. *)
Definition motion_color (motion : bool) : string :=
  if motion then "#FFC107" else "#9E9E9E".

Definition init (device_id room : string) : t :=
  {| base := SmartDevice.init device_id CAMERA room;
     motion_detected := false;
     recording := false;
     battery_level := 100 |}.

Definition with_base (b : SmartDevice.t) (self : t) : t :=
  {| base := b; motion_detected := motion_detected self;
     recording := recording self; battery_level := battery_level self |}.

(** [coin] is the draw of [random.choice([True, False])], used only when
    no state is forced. *)
Definition detect_motion (force_state : option bool) (coin : bool)
    (self : t) : bool * t :=
  let self :=
    {| base := base self;
       motion_detected := match force_state with
                          | Some b => b
                          | None => coin
                          end;
       recording := recording self;
       battery_level := battery_level self |} in
  (motion_detected self, self).

Definition set_recording (r : bool) (self : t) : t :=
  {| base := base self; motion_detected := motion_detected self;
     recording := r; battery_level := battery_level self |}.

Definition start_recording (self : t) : t :=
  if SmartDevice.status (base self) then set_recording true self else self.

Definition stop_recording (self : t) : t := set_recording false self.

Definition get_motion_color (self : t) : string :=
  motion_color (motion_detected self).

Definition get_details (self : t) : string :=
  if negb (SmartDevice.status (base self)) then
    summary_prefix (SmartDevice.device_id (base self))
                   (SmartDevice.room (base self)) ++ "OFF"
  else
    let motion_status :=
      if motion_detected self then "Motion Detected!" else "No Motion" in
    let recording_status :=
      if recording self then "Recording" else "Standby" in
    summary_prefix (SmartDevice.device_id (base self))
                   (SmartDevice.room (base self))
      ++ motion_status ++ " - " ++ recording_status
      ++ " - Battery: " ++ str_int (battery_level self) ++ "%".

End SecurityCamera.

Module SmartDoor.

Record t : Type := mk {
  base : SmartDevice.t;
  locked : bool;
  door_open : bool
}.

(** The [lock_color] dict. *)
Definition lock_color (locked : bool) : string :=
  if locked then "#4CAF50" else "#F44336".

Definition init (device_id room : string) : t :=
  {| base := SmartDevice.init device_id DOOR room;
     locked := true;
     door_open := false |}.

Definition with_base (b : SmartDevice.t) (self : t) : t :=
  {| base := b; locked := locked self; door_open := door_open self |}.

Definition set_locked (l : bool) (self : t) : t :=
  {| base := base self; locked := l; door_open := door_open self |}.

Definition set_door_open (o : bool) (self : t) : t :=
  {| base := base self; locked := locked self; door_open := o |}.

Definition toggle_lock (self : t) : bool * t :=
  let self := set_locked (negb (locked self)) self in
  (locked self, self).

Definition open_door (self : t) : bool * t :=
  if negb (locked self) then
    (true, set_door_open true self)
  else
    (false, self).

Definition close_door (self : t) : bool * t :=
  (true, set_door_open false self).

Definition get_lock_color (self : t) : string :=
  lock_color (locked self).

Definition get_details (self : t) : string :=
  if negb (SmartDevice.status (base self)) then
    summary_prefix (SmartDevice.device_id (base self))
                   (SmartDevice.room (base self)) ++ "OFF"
  else
    let lock_status := if locked self then "Locked" else "Unlocked" in
    let door_status := if door_open self then "Open" else "Closed" in
    summary_prefix (SmartDevice.device_id (base self))
                   (SmartDevice.room (base self))
      ++ door_status ++ " - " ++ lock_status.

End SmartDoor.

Module SmartWindow.

Record t : Type := mk {
  base : SmartDevice.t;
  open_percentage : Z;
  blinds_percentage : Z;
  light_level : number
}.

Definition init (device_id room : string) : t :=
  {| base := SmartDevice.init device_id WINDOW room;
     open_percentage := 0;
     blinds_percentage := 0;
     light_level := PyInt 50 |}.

Definition with_base (b : SmartDevice.t) (self : t) : t :=
  {| base := b; open_percentage := open_percentage self;
     blinds_percentage := blinds_percentage self;
     light_level := light_level self |}.

Definition set_open_percentage (percentage : Z) (self : t) : t :=
  let self := {| base := base self;
                 open_percentage := clamp 0 100 percentage;
                 blinds_percentage := blinds_percentage self;
                 light_level := light_level self |} in
  if open_percentage self >? 0 then
    with_base (SmartDevice.set_status true (base self)) self
  else
    with_base (SmartDevice.set_status false (base self)) self.

Definition calculate_light_level (self : t) : t :=
  {| base := base self;
     open_percentage := open_percentage self;
     blinds_percentage := blinds_percentage self;
     light_level :=
       int_truediv (open_percentage self * (100 - blinds_percentage self))
                   100 |}.

Definition set_blinds_percentage (percentage : Z) (self : t) : t :=
  let self := {| base := base self;
                 open_percentage := open_percentage self;
                 blinds_percentage := clamp 0 100 percentage;
                 light_level := light_level self |} in
  calculate_light_level self.

Definition get_details (format_float : Q -> string) (self : t) : string :=
  if negb (SmartDevice.status (base self)) then
    summary_prefix (SmartDevice.device_id (base self))
                   (SmartDevice.room (base self)) ++ "CLOSED"
  else
    summary_prefix (SmartDevice.device_id (base self))
                   (SmartDevice.room (base self))
      ++ str_int (open_percentage self) ++ "% Open - Blinds: "
      ++ str_int (blinds_percentage self) ++ "% - Light: "
      ++ format_number format_float (light_level self) ++ "%".

End SmartWindow.

Module SmartFan.

Record t : Type := mk {
  base : SmartDevice.t;
  speed : Z;
  oscillating : bool;
  timer : Z
}.

Definition init (device_id room : string) : t :=
  {| base := SmartDevice.init device_id FAN room;
     speed := 0;
     oscillating := false;
     timer := 0 |}.

Definition with_base (b : SmartDevice.t) (self : t) : t :=
  {| base := b; speed := speed self; oscillating := oscillating self;
     timer := timer self |}.

Definition set_speed (s : Z) (self : t) : t :=
  let self := {| base := base self; speed := clamp 0 3 s;
                 oscillating := oscillating self; timer := timer self |} in
  if speed self >? 0 then
    with_base (SmartDevice.set_status true (base self)) self
  else
    with_base (SmartDevice.set_status false (base self)) self.

Definition toggle_oscillation (self : t) : bool * t :=
  let self :=
    if SmartDevice.status (base self) then
      {| base := base self; speed := speed self;
         oscillating := negb (oscillating self); timer := timer self |}
    else self in
  (oscillating self, self).

Definition set_timer (minutes : Z) (self : t) : t :=
  {| base := base self; speed := speed self;
     oscillating := oscillating self; timer := Z.max 0 minutes |}.

(** The local [speed_labels] dict; [None] is the [KeyError] of a missing
    key. *)
Definition speed_labels (s : Z) : option string :=
  if s =? 1 then Some "Low"
  else if s =? 2 then Some "Medium"
  else if s =? 3 then Some "High"
  else None.

(** [None] when the f-string raises [KeyError]. *)
Definition get_details (self : t) : option string :=
  if negb (SmartDevice.status (base self)) || (speed self =? 0) then
    Some (summary_prefix (SmartDevice.device_id (base self))
                         (SmartDevice.room (base self)) ++ "OFF")
  else
    let osc_status := if oscillating self then "Oscillating" else "Fixed" in
    let timer_status :=
      if timer self >? 0
      then "Timer: " ++ str_int (timer self) ++ "min"
      else "No Timer" in
    match speed_labels (speed self) with
    | Some label =>
        Some (summary_prefix (SmartDevice.device_id (base self))
                             (SmartDevice.room (base self))
                ++ label ++ " - " ++ osc_status ++ " - " ++ timer_status)
    | None => None
    end.

End SmartFan.

(** A device of the registry: an instance of one of the six classes.  The
    constructor is what [isinstance] tests. *)
Inductive Device : Type :=
| Light (d : SmartLight.t)
| Thermo (d : Thermostat.t)
| Camera (d : SecurityCamera.t)
| Door (d : SmartDoor.t)
| Window (d : SmartWindow.t)
| Fan (d : SmartFan.t).

(** The [SmartDevice] attributes of a device. *)
Definition device_base (d : Device) : SmartDevice.t :=
  match d with
  | Light l => SmartLight.base l
  | Thermo t => Thermostat.base t
  | Camera c => SecurityCamera.base c
  | Door r => SmartDoor.base r
  | Window w => SmartWindow.base w
  | Fan f => SmartFan.base f
  end.

(** [device.get_details()], dispatched on the class of the receiver. *)
Definition get_details (format_float : Q -> string) (d : Device)
    : option string :=
  match d with
  | Light l => Some (SmartLight.get_details l)
  | Thermo t => Some (Thermostat.get_details format_float t)
  | Camera c => Some (SecurityCamera.get_details c)
  | Door r => Some (SmartDoor.get_details r)
  | Window w => Some (SmartWindow.get_details format_float w)
  | Fan f => SmartFan.get_details f
  end.

(** ** utils/automation.py *)

(** *** The wall clock

    [time.time()] and [time.localtime()] are the only inputs of the engine
    that are not arguments.  The clock is an oracle: [clock n] is what the
    [n]-th query of a run observes, and a computation that may query it
    threads the number of queries made so far. *)

Record Instant : Type := mkInstant {
  seconds : Q;      (* the value of time.time() *)
  tm_hour : Z       (* time.localtime().tm_hour *)
}.

Definition Clock : Type := nat -> Instant.

Definition Clk (A : Type) : Type := nat -> A * nat.

Definition ret {A : Type} (a : A) : Clk A := fun n => (a, n).

Definition bind {A B : Type} (c : Clk A) (k : A -> Clk B) : Clk B :=
  fun n => let (a, n') := c n in k a n'.

Declare Scope clk_scope.
Delimit Scope clk_scope with clk.
Notation "x <- c ;; k" := (bind c (fun x => k))
  (at level 61, c at next level, right associativity) : clk_scope.
Notation "' p <- c ;; k" := (bind c (fun x => let 'p := x in k))
  (at level 61, p pattern, c at next level, right associativity) : clk_scope.
Local Open Scope clk_scope.

Definition time_time (clock : Clock) : Clk Q :=
  fun n => (seconds (clock n), S n).

Definition localtime_tm_hour (clock : Clock) : Clk Z :=
  fun n => (tm_hour (clock n), S n).

Module AutomationRule.

(** [condition] and [action] are the closures handed to the constructor.
    A condition reads the registry (and possibly the clock); an action
    returns the registry as its mutations leave it. *)
Record t : Type := mk {
  name : string;
  condition : list Device -> Clk bool;
  action : list Device -> Clk (list Device);
  enabled : bool;
  last_triggered : option Q
}.

Definition init (name : string) (condition : list Device -> Clk bool)
    (action : list Device -> Clk (list Device)) (enabled : bool) : t :=
  {| name := name; condition := condition; action := action;
     enabled := enabled; last_triggered := None |}.

Definition set_last_triggered (x : option Q) (self : t) : t :=
  {| name := name self; condition := condition self;
     action := action self; enabled := enabled self;
     last_triggered := x |}.

Definition set_enabled (b : bool) (self : t) : t :=
  {| name := name self; condition := condition self;
     action := action self; enabled := b;
     last_triggered := last_triggered self |}.

(** [apply] returns its boolean result, the rule and the registry. *)
Definition apply (clock : Clock) (self : t) (devices : list Device)
    : Clk (bool * t * list Device) :=
  if negb (enabled self) then
    ret (false, self, devices)
  else
    c <- condition self devices ;;
    if c then
      devices <- action self devices ;;
      now <- time_time clock ;;
      ret (true, set_last_triggered (Some now) self, devices)
    else
      ret (false, self, devices).

Definition toggle (self : t) : bool * t :=
  let self := set_enabled (negb (enabled self)) self in
  (enabled self, self).

End AutomationRule.

Module AutomationSystem.

Record t : Type := mk {
  devices : list Device;
  rules : list AutomationRule.t;
  enabled : bool;
  last_execution : Q;
  motion_timer : option unit     (* only ever None *)
}.

Definition init (clock : Clock) : Clk t :=
  now <- time_time clock ;;
  ret {| devices := []; rules := []; enabled := true;
         last_execution := now; motion_timer := None |}.

Definition with_devices (ds : list Device) (self : t) : t :=
  {| devices := ds; rules := rules self; enabled := enabled self;
     last_execution := last_execution self;
     motion_timer := motion_timer self |}.

Definition with_rules (rs : list AutomationRule.t) (self : t) : t :=
  {| devices := devices self; rules := rs; enabled := enabled self;
     last_execution := last_execution self;
     motion_timer := motion_timer self |}.

Definition with_last_execution (x : Q) (self : t) : t :=
  {| devices := devices self; rules := rules self;
     enabled := enabled self; last_execution := x;
     motion_timer := motion_timer self |}.

Definition add_device (device : Device) (self : t) : t :=
  with_devices (devices self ++ [device]) self.

Definition remove_device (device_id : string) (self : t) : t :=
  with_devices
    (filter (fun d => negb (String.eqb
                              (SmartDevice.device_id (device_base d))
                              device_id))
            (devices self))
    self.

Definition add_rule (rule : AutomationRule.t) (self : t) : t :=
  with_rules (rules self ++ [rule]) self.

Definition remove_rule (rule_name : string) (self : t) : t :=
  with_rules
    (filter (fun r => negb (String.eqb (AutomationRule.name r) rule_name))
            (rules self))
    self.

Definition toggle (self : t) : bool * t :=
  let self := {| devices := devices self; rules := rules self;
                 enabled := negb (enabled self);
                 last_execution := last_execution self;
                 motion_timer := motion_timer self |} in
  (enabled self, self).

(** The [for rule in self.rules] loop of [execute_rules]: the rules as
    the pass leaves them, and the registry. *)
Fixpoint run_rules (clock : Clock) (rules : list AutomationRule.t)
    (devices : list Device) : Clk (list AutomationRule.t * list Device) :=
  match rules with
  | [] => ret ([], devices)
  | rule :: rest =>
      if AutomationRule.enabled rule then
        '(_, rule, devices) <- AutomationRule.apply clock rule devices ;;
        '(rest, devices) <- run_rules clock rest devices ;;
        ret (rule :: rest, devices)
      else
        '(rest, devices) <- run_rules clock rest devices ;;
        ret (rule :: rest, devices)
  end.

Definition execute_rules (clock : Clock) (self : t) : Clk t :=
  if negb (enabled self) then
    ret self
  else
    now <- time_time clock ;;
    let self := with_last_execution now self in
    '(rules, devices) <- run_rules clock (rules self) (devices self) ;;
    ret (with_devices devices (with_rules rules self)).

Definition get_device_by_id (device_id : string) (self : t)
    : option Device :=
  find (fun d => String.eqb (SmartDevice.device_id (device_base d))
                            device_id)
       (devices self).

Definition DeviceType_eqb (a b : DeviceType) : bool :=
  match a, b with
  | LIGHT, LIGHT | THERMOSTAT, THERMOSTAT | CAMERA, CAMERA
  | DOOR, DOOR | WINDOW, WINDOW | FAN, FAN => true
  | _, _ => false
  end.

Definition get_devices_by_type (device_type : DeviceType) (self : t)
    : list Device :=
  filter (fun d => DeviceType_eqb (SmartDevice.device_type (device_base d))
                                  device_type)
         (devices self).

Definition get_devices_by_room (room : string) (self : t) : list Device :=
  filter (fun d => String.eqb (SmartDevice.room (device_base d)) room)
         (devices self).

End AutomationSystem.

(** *** Predefined automation rules

    Each factory's nested [condition] and [action] are given first, under
    the factory's name; an action's [for device in devices] loop is a [map]
    of its body over the registry. *)

Definition is_on (d : Device) : bool := SmartDevice.status (device_base d).

(** [[d for d in devices if isinstance(d, SecurityCamera) and d.status]]. *)
Definition enabled_cameras (devices : list Device) : list SecurityCamera.t :=
  flat_map (fun d => match d with
                     | Camera c =>
                         if SmartDevice.status (SecurityCamera.base c)
                         then [c] else []
                     | _ => []
                     end) devices.

Definition motion_lighting_condition (devices : list Device) : bool :=
  existsb (fun d => match d with
                    | Camera c =>
                        SmartDevice.status (SecurityCamera.base c)
                        && SecurityCamera.motion_detected c
                    | _ => false
                    end) devices.

Definition motion_lighting_action (devices : list Device) : list Device :=
  map (fun device =>
         match device with
         | Light l =>
             let l := SmartLight.with_base
                        (SmartDevice.set_status true (SmartLight.base l)) l in
             Light (SmartLight.set_brightness 100 l)
         | _ => device
         end) devices.

Definition create_motion_lighting_rule : AutomationRule.t :=
  AutomationRule.init "Motion Lighting"
    (fun devices => ret (motion_lighting_condition devices))
    (fun devices => ret (motion_lighting_action devices))
    true.

(** [abs(d.temperature - target_temp) > 1]. *)
Definition deviates (temperature target_temp : number) : bool :=
  match (1 ?= Qabs (num_val temperature - num_val target_temp))%Q with
  | Lt => true
  | _ => false
  end.

Definition temperature_control_condition (target_temp : number)
    (devices : list Device) : bool :=
  existsb (fun d => match d with
                    | Thermo t =>
                        SmartDevice.status (Thermostat.base t)
                        && deviates (Thermostat.temperature t) target_temp
                    | _ => false
                    end) devices.

Definition temperature_control_action (target_temp : number)
    (devices : list Device) : list Device :=
  map (fun device =>
         match device with
         | Thermo t =>
             if SmartDevice.status (Thermostat.base t)
             then Thermo (Thermostat.set_temperature target_temp t)
             else device
         | _ => device
         end) devices.

Definition create_temperature_control_rule (target_temp : number)
    : AutomationRule.t :=
  AutomationRule.init "Temperature Control"
    (fun devices => ret (temperature_control_condition target_temp devices))
    (fun devices => ret (temperature_control_action target_temp devices))
    true.

Definition security_condition (devices : list Device) : bool :=
  let cameras := enabled_cameras devices in
  match cameras with
  | [] => false
  | _ :: _ =>
      forallb (fun camera => negb (SecurityCamera.motion_detected camera))
              cameras
  end.

Definition security_action (devices : list Device) : list Device :=
  map (fun device =>
         match device with
         | Door d =>
             if SmartDevice.status (SmartDoor.base d)
             then Door (SmartDoor.set_locked true d)
             else device
         | _ => device
         end) devices.

Definition create_security_rule : AutomationRule.t :=
  AutomationRule.init "Auto Lock"
    (fun devices => ret (security_condition devices))
    (fun devices => ret (security_action devices))
    true.

Definition energy_saving_condition (devices : list Device) : bool :=
  let cameras := enabled_cameras devices in
  match cameras with
  | [] => false
  | _ :: _ =>
      let no_motion :=
        forallb (fun camera => negb (SecurityCamera.motion_detected camera))
                cameras in
      no_motion
  end.

Definition energy_saving_action (devices : list Device) : list Device :=
  map (fun device =>
         match device with
         | Light l =>
             if SmartDevice.status (SmartLight.base l)
             then Light (SmartLight.set_brightness 0 l)
             else device
         | Fan f =>
             if SmartDevice.status (SmartFan.base f)
             then Fan (SmartFan.set_speed 0 f)
             else device
         | _ => device
         end) devices.

Definition create_energy_saving_rule : AutomationRule.t :=
  AutomationRule.init "Energy Saving"
    (fun devices => ret (energy_saving_condition devices))
    (fun devices => ret (energy_saving_action devices))
    true.

Definition morning_routine_action (devices : list Device) : list Device :=
  map (fun device =>
         match device with
         | Light l =>
             let l := SmartLight.with_base
                        (SmartDevice.set_status true (SmartLight.base l)) l in
             let l := SmartLight.set_brightness 70 l in
             Light (SmartLight.set_color_temp 5000 l)
         | Thermo t =>
             let t := Thermostat.with_base
                        (SmartDevice.set_status true (Thermostat.base t)) t in
             Thermo (Thermostat.set_temperature (PyInt 22) t)
         | Window w => Window (SmartWindow.set_blinds_percentage 30 w)
         | _ => device
         end) devices.

Definition create_morning_routine_rule (clock : Clock) (morning_hour : Z)
    : AutomationRule.t :=
  AutomationRule.init "Morning Routine"
    (fun _ => current_hour <- localtime_tm_hour clock ;;
              ret (current_hour =? morning_hour))
    (fun devices => ret (morning_routine_action devices))
    true.

Definition evening_routine_action (devices : list Device) : list Device :=
  map (fun device =>
         match device with
         | Light l =>
             let l := SmartLight.with_base
                        (SmartDevice.set_status true (SmartLight.base l)) l in
             let l := SmartLight.set_brightness 50 l in
             Light (SmartLight.set_color_temp 3000 l)
         | Thermo t =>
             let t := Thermostat.with_base
                        (SmartDevice.set_status true (Thermostat.base t)) t in
             Thermo (Thermostat.set_temperature (PyInt 21) t)
         | Window w => Window (SmartWindow.set_blinds_percentage 100 w)
         | _ => device
         end) devices.

Definition create_evening_routine_rule (clock : Clock) (evening_hour : Z)
    : AutomationRule.t :=
  AutomationRule.init "Evening Routine"
    (fun _ => current_hour <- localtime_tm_hour clock ;;
              ret (current_hour =? evening_hour))
    (fun devices => ret (evening_routine_action devices))
    true.

(** ** Reference definitions

    What the specification describes, written from its words, for
    comparison with the embedding above. *)

(** "applies every rule in registry order via [apply], regardless of
    whether earlier rules fired": [apply] on each rule in turn, enabled or
    not, its boolean result ignored. *)
Fixpoint apply_every_rule (clock : Clock) (rules : list AutomationRule.t)
    (devices : list Device) : Clk (list AutomationRule.t * list Device) :=
  match rules with
  | [] => ret ([], devices)
  | rule :: rest =>
      fun n =>
        let '(_, rule', devices', n') :=
          AutomationRule.apply clock rule devices n in
        let '(rest', devices'', n'') :=
          apply_every_rule clock rest devices' n' in
        (rule' :: rest', devices'', n'')
  end.

(** "derived light level = open% x (100 - blinds%) / 100". *)
Definition derived_light_level (w : SmartWindow.t) : Q :=
  inject_Z (SmartWindow.open_percentage w)
  * (100 - inject_Z (SmartWindow.blinds_percentage w)) / 100.

(** The "OFF" summary of a device: its identity followed by [OFF]. *)
Definition off_summary (d : Device) : string :=
  summary_prefix (SmartDevice.device_id (device_base d))
                 (SmartDevice.room (device_base d)) ++ "OFF".

(** A window reports [CLOSED] where the other classes report [OFF]. *)
Definition closed_summary (d : Device) : string :=
  summary_prefix (SmartDevice.device_id (device_base d))
                 (SmartDevice.room (device_base d)) ++ "CLOSED".

(** [n] simulation ticks of a thermostat. *)
Fixpoint ticks (n : nat) (t : Thermostat.t) : Thermostat.t :=
  match n with
  | O => t
  | S n' => ticks n' (Thermostat.update_current_temp t)
  end.

(** ** Sample objects *)

(** The front door as [create_devices] builds it: off, locked, closed. *)
Definition front_door : SmartDoor.t := SmartDoor.init "Front Door" "Entrance".

(** The same door after the lock button was pressed once. *)
Definition unlocked_front_door : SmartDoor.t :=
  snd (SmartDoor.toggle_lock front_door).

(** The front-door camera, switched on; it reports no motion. *)
Definition front_camera : SecurityCamera.t :=
  SecurityCamera.with_base
    (snd (SmartDevice.toggle_status
            (SecurityCamera.base
               (SecurityCamera.init "Front Door Camera" "Entrance"))))
    (SecurityCamera.init "Front Door Camera" "Entrance").

Definition living_room_light : SmartLight.t :=
  SmartLight.init "Living Room Light" "Living Room" 4000.

Definition living_room_window : SmartWindow.t :=
  SmartWindow.init "Living Room Window" "Living Room".

Definition living_room_thermostat : Thermostat.t :=
  Thermostat.init "Living Room Thermostat" "Living Room".

(** A clock that answers its [n]-th query with second [n], at seven. *)
Definition sample_clock : Clock :=
  fun n => {| seconds := inject_Z (Z.of_nat n) + 1000; tm_hour := 7 |}.

(** The unlocked front door, switched on. *)
Definition enabled_front_door : SmartDoor.t :=
  SmartDoor.with_base
    (snd (SmartDevice.toggle_status (SmartDoor.base unlocked_front_door)))
    unlocked_front_door.

(** A rule whose condition holds while some light is off and whose action
    is the one of the motion-lighting rule; created disabled or enabled. *)
Definition light_off_rule (enabled : bool) : AutomationRule.t :=
  AutomationRule.init "Lights On"
    (fun devices =>
       ret (existsb (fun d => match d with
                              | Light l =>
                                  negb (SmartDevice.status (SmartLight.base l))
                              | _ => false
                              end) devices))
    (fun devices => ret (motion_lighting_action devices))
    enabled.

(** A system started at clock query 0 with three devices and three of the
    predefined rules, and the same system paused. *)
Definition sample_system : AutomationSystem.t :=
  let system := fst (AutomationSystem.init sample_clock 0%nat) in
  let system := AutomationSystem.add_device (Light living_room_light) system in
  let system := AutomationSystem.add_device (Camera front_camera) system in
  let system := AutomationSystem.add_device (Door enabled_front_door) system in
  let system := AutomationSystem.add_rule create_motion_lighting_rule system in
  let system := AutomationSystem.add_rule create_security_rule system in
  AutomationSystem.add_rule create_energy_saving_rule system.

Definition paused_system : AutomationSystem.t :=
  snd (AutomationSystem.toggle sample_system).

(** The living-room thermostat (at 20) with its target set to 22, and with
    its target set to 20.25. *)
Definition thermostat_20_to_22 : Thermostat.t :=
  Thermostat.set_temperature (PyInt 22) living_room_thermostat.

Definition thermostat_20_to_20_25 : Thermostat.t :=
  Thermostat.set_temperature (PyFloat (81 # 4)) living_room_thermostat.

Definition thermostat_20_to_18 : Thermostat.t :=
  Thermostat.set_temperature (PyInt 18) living_room_thermostat.

(** ** ui/dashboard.py: what the dashboard does to the engine

    Of each handler only the calls on the device or on the system are
    kept; widget updates, message boxes and the two-second sleep are left
    out. *)

(** [DeviceCard.toggle_recording] on the card of a camera. *)
Definition toggle_recording (device : SecurityCamera.t) : SecurityCamera.t :=
  if SecurityCamera.recording device
  then SecurityCamera.stop_recording device
  else SecurityCamera.start_recording device.

(** [DeviceCard.toggle_door] on the card of a door; the boolean tells
    whether the "Door Locked" warning is shown. *)
Definition toggle_door (device : SmartDoor.t) : bool * SmartDoor.t :=
  if SmartDoor.door_open device then
    (false, snd (SmartDoor.close_door device))
  else
    let (success, device) := SmartDoor.open_door device in
    (negb success, device).

(** The body of the thermostat loop of [Dashboard.simulation_loop]. *)
Definition drift (device : Device) : Device :=
  match device with
  | Thermo t =>
      if SmartDevice.status (Thermostat.base t)
      then Thermo (Thermostat.update_current_temp t)
      else device
  | _ => device
  end.

(** One iteration of [Dashboard.simulation_loop]. *)
Definition simulation_step (clock : Clock) (system : AutomationSystem.t)
    : Clk AutomationSystem.t :=
  if AutomationSystem.enabled system then
    system <- AutomationSystem.execute_rules clock system ;;
    ret (AutomationSystem.with_devices
           (map drift (AutomationSystem.devices system)) system)
  else
    ret system.

(** ** main.py *)

Definition create_devices : list Device :=
  [ Light (SmartLight.init "Living Room Light" "Living Room" 4000);
    Light (SmartLight.init "Living Room Lamp" "Living Room" 3000);
    Thermo (Thermostat.init "Living Room Thermostat" "Living Room");
    Window (SmartWindow.init "Living Room Window" "Living Room");
    Fan (SmartFan.init "Living Room Fan" "Living Room");
    Light (SmartLight.init "Kitchen Light" "Kitchen" 5000);
    Light (SmartLight.init "Kitchen Counter Light" "Kitchen" 4500);
    Thermo (Thermostat.init "Kitchen Thermostat" "Kitchen");
    Window (SmartWindow.init "Kitchen Window" "Kitchen");
    Light (SmartLight.init "Bedroom Light" "Bedroom" 3000);
    Light (SmartLight.init "Bedroom Lamp" "Bedroom" 2700);
    Thermo (Thermostat.init "Bedroom Thermostat" "Bedroom");
    Window (SmartWindow.init "Bedroom Window" "Bedroom");
    Fan (SmartFan.init "Bedroom Fan" "Bedroom");
    Light (SmartLight.init "Bathroom Light" "Bathroom" 4000);
    Window (SmartWindow.init "Bathroom Window" "Bathroom");
    Light (SmartLight.init "Entrance Light" "Entrance" 4000);
    Camera (SecurityCamera.init "Front Door Camera" "Entrance");
    Door (SmartDoor.init "Front Door" "Entrance") ].

Definition create_automation_system (clock : Clock) (devices : list Device)
    : Clk AutomationSystem.t :=
  system <- AutomationSystem.init clock ;;
  let system :=
    fold_left (fun system device => AutomationSystem.add_device device system)
              devices system in
  let system :=
    AutomationSystem.add_rule create_motion_lighting_rule system in
  let system :=
    AutomationSystem.add_rule (create_temperature_control_rule (PyInt 22))
                              system in
  let system := AutomationSystem.add_rule create_security_rule system in
  let system := AutomationSystem.add_rule create_energy_saving_rule system in
  let system :=
    AutomationSystem.add_rule (create_morning_routine_rule clock 7) system in
  let system :=
    AutomationSystem.add_rule (create_evening_routine_rule clock 19) system in
  ret system.

(** ** Inherited methods

    [toggle_status], which every class inherits from [SmartDevice], on a
    camera and on a fan. *)

Definition camera_toggle_status (self : SecurityCamera.t)
    : bool * SecurityCamera.t :=
  let (result, b) := SmartDevice.toggle_status (SecurityCamera.base self) in
  (result, SecurityCamera.with_base b self).

Definition fan_toggle_status (self : SmartFan.t) : bool * SmartFan.t :=
  let (result, b) := SmartDevice.toggle_status (SmartFan.base self) in
  (result, SmartFan.with_base b self).

(** ** Vocabulary of the further properties *)

(** The class of a device, as a [DeviceType]. *)
Definition device_class (d : Device) : DeviceType :=
  match d with
  | Light _ => LIGHT
  | Thermo _ => THERMOSTAT
  | Camera _ => CAMERA
  | Door _ => DOOR
  | Window _ => WINDOW
  | Fan _ => FAN
  end.

(** What never changes about a device: its class and the three attributes
    the constructor of [SmartDevice] receives. *)
Definition identity (d : Device) : DeviceType * string * DeviceType * string :=
  (device_class d,
   SmartDevice.device_id (device_base d),
   SmartDevice.device_type (device_base d),
   SmartDevice.room (device_base d)).

(** [|k - ct|], the key of the [min] in [update_light_color]. *)
Definition kelvin_distance (ct k : Z) : Z := Z.abs (k - ct).

(** A rule without its [last_triggered]. *)
Definition rule_setup (r : AutomationRule.t)
    : string * (list Device -> Clk bool)
      * (list Device -> Clk (list Device)) * bool :=
  (AutomationRule.name r, AutomationRule.condition r,
   AutomationRule.action r, AutomationRule.enabled r).

(** What one [apply] may do to the rule: nothing but store a reading of
    the clock in [last_triggered]. *)
Definition touched_only_in_last_triggered (clock : Clock)
    (before after : AutomationRule.t) : Prop :=
  rule_setup after = rule_setup before
  /\ (AutomationRule.last_triggered after = AutomationRule.last_triggered before
      \/ exists m, AutomationRule.last_triggered after
                   = Some (seconds (clock m))).

(** The front-door camera, on, after [detect_motion(True)]. *)
Definition alert_camera : SecurityCamera.t :=
  snd (SecurityCamera.detect_motion (Some true) false front_camera).

(** The living-room light dimmed to 40 (so on). *)
Definition dimmed_light : SmartLight.t :=
  SmartLight.set_brightness 40 living_room_light.


(** The default home, started on the sample clock. *)
Definition default_system : AutomationSystem.t :=
  fst (create_automation_system sample_clock create_devices 0%nat).

(** * Properties *)

(** Case analysis on every guard of the goal, outermost first. *)
Ltac case_guards :=
  repeat match goal with
         | |- context [if ?b then _ else _] => destruct b
         end.

(** ** Doors *)

Section DoorFacts.

Variable d : SmartDoor.t.

Lemma open_door_result : fst (SmartDoor.open_door d) = negb (SmartDoor.locked d).
Proof. unfold SmartDoor.open_door. now destruct (SmartDoor.locked d). Qed.

Lemma open_door_keeps_lock :
  SmartDoor.locked (snd (SmartDoor.open_door d)) = SmartDoor.locked d.
Proof.
  unfold SmartDoor.open_door.
  destruct (SmartDoor.locked d) eqn:E; simpl; congruence.
Qed.

Lemma open_door_keeps_base :
  SmartDoor.base (snd (SmartDoor.open_door d)) = SmartDoor.base d.
Proof. unfold SmartDoor.open_door. now destruct (SmartDoor.locked d). Qed.

End DoorFacts.

(** C3.  [open_door] returns [True] exactly when the door is unlocked at the
    call.  An unlocked door ends with its open flag set and nothing else
    touched; a locked door is handed back as it was, together with the
    result [False]: the refusal is a value of the call, which has no other
    outcome. *)
Theorem open_door_succeeds_iff_unlocked (d : SmartDoor.t) :
  (fst (SmartDoor.open_door d) = true <-> SmartDoor.locked d = false)
  /\ (SmartDoor.locked d = false ->
        fst (SmartDoor.open_door d) = true
        /\ SmartDoor.door_open (snd (SmartDoor.open_door d)) = true
        /\ SmartDoor.locked (snd (SmartDoor.open_door d)) = false
        /\ SmartDoor.base (snd (SmartDoor.open_door d)) = SmartDoor.base d)
  /\ (SmartDoor.locked d = true -> SmartDoor.open_door d = (false, d)).
Proof.
  split; [| split].
  - rewrite open_door_result. destruct (SmartDoor.locked d); simpl; intuition congruence.
  - intros Hl. rewrite open_door_result, open_door_keeps_lock, open_door_keeps_base.
    rewrite Hl. repeat split.
    unfold SmartDoor.open_door. now rewrite Hl.
  - intros Hl. unfold SmartDoor.open_door. now rewrite Hl.
Qed.

Lemma open_door_succeeds_iff_unlocked_witness :
  (SmartDoor.locked unlocked_front_door = false
   /\ fst (SmartDoor.open_door unlocked_front_door) = true
   /\ SmartDoor.door_open (snd (SmartDoor.open_door unlocked_front_door)) = true)
  /\ (SmartDoor.locked front_door = true
      /\ SmartDoor.open_door front_door = (false, front_door)).
Proof.
  split.
  - split; [reflexivity |].
    destruct (proj1 (proj2 (open_door_succeeds_iff_unlocked unlocked_front_door))
                eq_refl) as (Hr & Ho & _).
    exact (conj Hr Ho).
  - split; [reflexivity |].
    exact (proj2 (proj2 (open_door_succeeds_iff_unlocked front_door)) eq_refl).
Defined.

(** ** Lights *)

Lemma set_brightness_stores_its_argument (b : Z) (l : SmartLight.t) :
  SmartLight.brightness (SmartLight.set_brightness b l) = b.
Proof.
  unfold SmartLight.set_brightness; simpl.
  destruct (b >? 0); [reflexivity |]. now destruct (b =? 0).
Qed.

Lemma set_brightness_status (b : Z) (l : SmartLight.t) :
  SmartDevice.status (SmartLight.base (SmartLight.set_brightness b l))
  = if b >? 0 then true
    else if b =? 0 then false
    else SmartDevice.status (SmartLight.base l).
Proof.
  unfold SmartLight.set_brightness; simpl.
  destruct (b >? 0); [reflexivity |]. now destruct (b =? 0).
Qed.

(** Within the slider's range the stored value is the clamped one and the
    on flag follows it. *)
Lemma set_brightness_in_range (b : Z) (l : SmartLight.t) :
  0 <= b <= 100 ->
  SmartLight.brightness (SmartLight.set_brightness b l) = clamp 0 100 b
  /\ SmartDevice.status (SmartLight.base (SmartLight.set_brightness b l))
     = (b >? 0).
Proof.
  intros Hb. rewrite set_brightness_stores_its_argument, set_brightness_status.
  split; [unfold clamp; lia |].
  destruct (Z.gtb_spec b 0) as [|Hle]; [reflexivity |].
  destruct (Z.eqb_spec b 0); [reflexivity | lia].
Qed.

(** C4.  [set_brightness] stores its argument as given.  [150] is stored as
    [150] where the clamp gives [100]; on a light that is on, [-5] is
    stored as [-5] and the light stays on although the stored brightness is
    not positive. *)
Theorem set_brightness_does_not_clamp :
  SmartLight.brightness (SmartLight.set_brightness 150 living_room_light) = 150
  /\ clamp 0 100 150 = 100
  /\ (let lit := SmartLight.set_brightness 40 living_room_light in
      SmartDevice.status (SmartLight.base lit) = true
      /\ SmartLight.brightness (SmartLight.set_brightness (-5) lit) = -5
      /\ clamp 0 100 (-5) = 0
      /\ SmartDevice.status
           (SmartLight.base (SmartLight.set_brightness (-5) lit)) = true
      /\ (SmartLight.brightness (SmartLight.set_brightness (-5) lit) >? 0)
         = false).
Proof. repeat split. Qed.

(** ** Thermostats: the target setter *)

(** C10.  [set_temperature t] stores [t] as the target and switches the
    thermostat on whatever its state was; the current temperature, mode,
    humidity and colour, and the identity, are as before. *)
Theorem set_temperature_frame (x : number) (t : Thermostat.t) :
  let t' := Thermostat.set_temperature x t in
  Thermostat.target_temp t' = x
  /\ SmartDevice.status (Thermostat.base t') = true
  /\ Thermostat.temperature t' = Thermostat.temperature t
  /\ Thermostat.mode t' = Thermostat.mode t
  /\ Thermostat.humidity t' = Thermostat.humidity t
  /\ SmartDevice.color (Thermostat.base t') = SmartDevice.color (Thermostat.base t)
  /\ SmartDevice.device_id (Thermostat.base t')
     = SmartDevice.device_id (Thermostat.base t)
  /\ SmartDevice.room (Thermostat.base t') = SmartDevice.room (Thermostat.base t)
  /\ SmartDevice.device_type (Thermostat.base t')
     = SmartDevice.device_type (Thermostat.base t).
Proof. cbv zeta. unfold Thermostat.set_temperature. simpl. repeat split. Qed.

(** ** Windows *)


Lemma set_open_percentage_keeps_light_level (p : Z) (w : SmartWindow.t) :
  SmartWindow.light_level (SmartWindow.set_open_percentage p w)
  = SmartWindow.light_level w.
Proof.
  unfold SmartWindow.set_open_percentage; simpl.
  now destruct (clamp 0 100 p >? 0).
Qed.

Lemma set_open_percentage_stores_clamped (p : Z) (w : SmartWindow.t) :
  SmartWindow.open_percentage (SmartWindow.set_open_percentage p w)
  = clamp 0 100 p
  /\ SmartWindow.blinds_percentage (SmartWindow.set_open_percentage p w)
     = SmartWindow.blinds_percentage w.
Proof.
  unfold SmartWindow.set_open_percentage; simpl.
  now destruct (clamp 0 100 p >? 0).
Qed.

(** C8.  [set_open_percentage] does not recompute [light_level].  On a window
    whose blinds were just set to 0 (which leaves the stored level equal to
    the derived one, 0) opening to 100 keeps the stored level at 0 while
    the derived level is 100. *)
Theorem set_open_percentage_leaves_light_level_stale :
  let w0 := SmartWindow.set_blinds_percentage 0 living_room_window in
  let w1 := SmartWindow.set_open_percentage 100 w0 in
  (num_val (SmartWindow.light_level w0) == derived_light_level w0)%Q
  /\ SmartWindow.open_percentage w1 = 100
  /\ SmartWindow.blinds_percentage w1 = 0
  /\ SmartWindow.light_level w1 = PyFloat 0
  /\ (derived_light_level w1 == 100)%Q
  /\ ~ (num_val (SmartWindow.light_level w1) == derived_light_level w1)%Q.
Proof.
  cbv zeta. repeat split; try reflexivity.
  vm_compute. discriminate.
Qed.

(** ** Summaries *)

Section Summaries.

Variable format_float : Q -> string.

Lemma fan_off_summary (f : SmartFan.t) :
  SmartDevice.status (SmartFan.base f) = false ->
  SmartFan.get_details f = Some (off_summary (Fan f)).
Proof.
  intros H. unfold SmartFan.get_details. now rewrite H.
Qed.

Lemma window_off_summary (w : SmartWindow.t) :
  SmartDevice.status (SmartWindow.base w) = false ->
  SmartWindow.get_details format_float w = closed_summary (Window w).
Proof.
  intros H. unfold SmartWindow.get_details. now rewrite H.
Qed.

End Summaries.

(** The claim of C9 as it is written fails on a window: switched off, the
    living-room window reports [CLOSED]. *)
Lemma off_window_reports_closed :
  is_on (Window living_room_window) = false
  /\ get_details (fun _ => "") (Window living_room_window)
     = Some "Living Room Window (Living Room): CLOSED"
  /\ off_summary (Window living_room_window)
     = "Living Room Window (Living Room): OFF"
  /\ get_details (fun _ => "") (Window living_room_window)
     <> Some (off_summary (Window living_room_window)).
Proof. repeat split. discriminate. Qed.

(** C9 (amended).  A device whose on flag is false is summarised by its
    identity followed by a fixed word, whatever its other attributes hold:
    [OFF] for a light, thermostat, camera, door or fan, and [CLOSED] for a
    window. *)
Theorem off_device_summary (format_float : Q -> string) (d : Device) :
  is_on d = false ->
  get_details format_float d
  = Some (match d with
          | Window _ => closed_summary d
          | _ => off_summary d
          end).
Proof.
  intros H. destruct d as [l | t | c | r | w | f]; unfold is_on in H; simpl in *.
  - unfold SmartLight.get_details. now rewrite H.
  - unfold Thermostat.get_details. now rewrite H.
  - unfold SecurityCamera.get_details. now rewrite H.
  - unfold SmartDoor.get_details. now rewrite H.
  - f_equal. now apply window_off_summary.
  - now apply fan_off_summary.
Qed.

Lemma off_device_summary_witness :
  is_on (Door unlocked_front_door) = false
  /\ get_details (fun _ => "") (Door unlocked_front_door)
     = Some "Front Door (Entrance): OFF".
Proof.
  split; [reflexivity |].
  exact (off_device_summary (fun _ => "") (Door unlocked_front_door) eq_refl).
Defined.

(** ** The shared condition of Auto Lock and Energy Saving *)

Lemma in_enabled_cameras (c : SecurityCamera.t) (devices : list Device) :
  In c (enabled_cameras devices)
  <-> In (Camera c) devices
      /\ SmartDevice.status (SecurityCamera.base c) = true.
Proof.
  unfold enabled_cameras. rewrite in_flat_map. split.
  - intros (d & Hin & Hc). destruct d as [l | t | c' | r | w | f];
      try contradiction.
    destruct (SmartDevice.status (SecurityCamera.base c')) eqn:E;
      [| contradiction].
    destruct Hc as [-> | []]. auto.
  - intros (Hin & Hs). exists (Camera c). split; [assumption |].
    rewrite Hs. now left.
Qed.

Lemma security_condition_true_iff (devices : list Device) :
  security_condition devices = true
  <-> (exists c, In (Camera c) devices
                 /\ SmartDevice.status (SecurityCamera.base c) = true)
      /\ (forall c, In (Camera c) devices ->
                    SmartDevice.status (SecurityCamera.base c) = true ->
                    SecurityCamera.motion_detected c = false).
Proof.
  unfold security_condition.
  destruct (enabled_cameras devices) as [| c0 cs] eqn:E.
  - split; [discriminate |].
    intros ((c & Hc) & _). apply in_enabled_cameras in Hc.
    rewrite E in Hc. contradiction.
  - rewrite <- E, forallb_forall. split.
    + intros H. split.
      * exists c0. apply in_enabled_cameras. rewrite E. now left.
      * intros c Hin Hs. apply negb_true_iff, H, in_enabled_cameras. auto.
    + intros (_ & H) c Hc. apply in_enabled_cameras in Hc as (Hin & Hs).
      apply negb_true_iff. auto.
Qed.

Lemma energy_saving_condition_is_security_condition (devices : list Device) :
  energy_saving_condition devices = security_condition devices.
Proof.
  unfold energy_saving_condition, security_condition.
  now destruct (enabled_cameras devices).
Qed.

(** C6.  On every registry, whatever the clock, the condition of the Auto
    Lock rule and the condition of the Energy Saving rule give the same
    boolean; it is [True] exactly when the registry holds a camera that is
    on and no camera that is on reports motion. *)
Theorem auto_lock_and_energy_saving_share_condition
    (devices : list Device) (n : nat) :
  AutomationRule.condition create_security_rule devices n
  = AutomationRule.condition create_energy_saving_rule devices n
  /\ (fst (AutomationRule.condition create_security_rule devices n) = true
      <-> (exists c, In (Camera c) devices
                     /\ SmartDevice.status (SecurityCamera.base c) = true)
          /\ (forall c, In (Camera c) devices ->
                        SmartDevice.status (SecurityCamera.base c) = true ->
                        SecurityCamera.motion_detected c = false)).
Proof.
  split.
  - change (ret (security_condition devices) n
            = ret (energy_saving_condition devices) n).
    exact (f_equal (fun b => ret b n)
             (eq_sym (energy_saving_condition_is_security_condition devices))).
  - exact (security_condition_true_iff devices).
Qed.

(** ** Applying one rule *)

Section RuleApply.

Variable clock : Clock.
Variable rule : AutomationRule.t.
Variable devices : list Device.
Variable n : nat.

Lemma apply_disabled :
  AutomationRule.enabled rule = false ->
  AutomationRule.apply clock rule devices n = ((false, rule, devices), n).
Proof. intros H. unfold AutomationRule.apply. now rewrite H. Qed.

Lemma apply_condition_false (n1 : nat) :
  AutomationRule.enabled rule = true ->
  AutomationRule.condition rule devices n = (false, n1) ->
  AutomationRule.apply clock rule devices n = ((false, rule, devices), n1).
Proof.
  intros He Hc. unfold AutomationRule.apply, bind.
  rewrite He; cbn [negb]. now rewrite Hc.
Qed.

Lemma apply_condition_true (n1 n2 : nat) (devices' : list Device) :
  AutomationRule.enabled rule = true ->
  AutomationRule.condition rule devices n = (true, n1) ->
  AutomationRule.action rule devices n1 = (devices', n2) ->
  AutomationRule.apply clock rule devices n
  = ((true,
      AutomationRule.set_last_triggered (Some (seconds (clock n2))) rule,
      devices'),
     S n2).
Proof.
  intros He Hc Ha. unfold AutomationRule.apply, bind, time_time.
  rewrite He; cbn [negb]. rewrite Hc, Ha. reflexivity.
Qed.

(** A rule that fired was enabled, and differs from what it was only in
    [last_triggered]. *)
Lemma apply_fired_inv (rule' : AutomationRule.t) (devices' : list Device)
    (n' : nat) :
  AutomationRule.apply clock rule devices n = ((true, rule', devices'), n') ->
  AutomationRule.enabled rule = true
  /\ exists x, rule' = AutomationRule.set_last_triggered x rule.
Proof.
  unfold AutomationRule.apply, bind, time_time, ret.
  destruct (AutomationRule.enabled rule); simpl; [| discriminate].
  destruct (AutomationRule.condition rule devices n) as [[|] n1];
    [| discriminate].
  destruct (AutomationRule.action rule devices n1) as [ds n2].
  intros H. injection H as <- _ _. eauto.
Qed.

End RuleApply.

(** C2.  [apply] on a disabled rule, or on an enabled rule whose condition
    is false, returns [False] and hands back the rule (so its
    [last_triggered]) and the registry as they were.  On an enabled rule
    whose condition is true it runs the action, stores the clock's next
    reading in [last_triggered] (and changes nothing else of the rule) and
    returns [True].  Hence, once a rule has
    fired, if its condition is false on the registry the action left, a
    second [apply] there returns [False] and changes nothing. *)
Theorem apply_fires_iff_enabled_and_condition
    (clock : Clock) (rule : AutomationRule.t) (devices : list Device)
    (n : nat) :
  (AutomationRule.enabled rule = false ->
     AutomationRule.apply clock rule devices n = ((false, rule, devices), n))
  /\ (AutomationRule.enabled rule = true ->
      fst (AutomationRule.condition rule devices n) = false ->
      AutomationRule.apply clock rule devices n
      = ((false, rule, devices),
         snd (AutomationRule.condition rule devices n)))
  /\ (AutomationRule.enabled rule = true ->
      fst (AutomationRule.condition rule devices n) = true ->
      let n1 := snd (AutomationRule.condition rule devices n) in
      let devices' := fst (AutomationRule.action rule devices n1) in
      let n2 := snd (AutomationRule.action rule devices n1) in
      AutomationRule.apply clock rule devices n
      = ((true,
          AutomationRule.set_last_triggered (Some (seconds (clock n2))) rule,
          devices'),
         S n2)
      /\ AutomationRule.last_triggered
           (snd (fst (fst (AutomationRule.apply clock rule devices n))))
         = Some (seconds (clock n2))
      /\ rule_setup
           (snd (fst (fst (AutomationRule.apply clock rule devices n))))
         = rule_setup rule)
  /\ (forall rule' devices' n',
        AutomationRule.apply clock rule devices n
        = ((true, rule', devices'), n') ->
        fst (AutomationRule.condition rule devices' n') = false ->
        AutomationRule.apply clock rule' devices' n'
        = ((false, rule', devices'),
           snd (AutomationRule.condition rule devices' n'))).
Proof.
  split; [| split; [| split]].
  - apply apply_disabled.
  - intros He Hc. apply apply_condition_false; [assumption |].
    rewrite <- Hc. apply surjective_pairing.
  - intros He Hc. cbv zeta.
    assert (Hfire :
              AutomationRule.apply clock rule devices n
              = ((true,
                  AutomationRule.set_last_triggered
                    (Some (seconds
                             (clock
                                (snd (AutomationRule.action rule devices
                                        (snd (AutomationRule.condition rule
                                                devices n)))))))
                    rule,
                  fst (AutomationRule.action rule devices
                         (snd (AutomationRule.condition rule devices n)))),
                 S (snd (AutomationRule.action rule devices
                           (snd (AutomationRule.condition rule devices n)))))).
    { apply apply_condition_true with
        (n1 := snd (AutomationRule.condition rule devices n));
        [assumption | | apply surjective_pairing].
      rewrite <- Hc. apply surjective_pairing. }
    rewrite Hfire. split; [reflexivity | split; reflexivity].
  - intros rule' devices' n' Hfired Hc.
    destruct (apply_fired_inv _ _ _ _ _ _ _ Hfired) as (He & x & ->).
    apply apply_condition_false; [assumption |].
    cbn [AutomationRule.condition AutomationRule.set_last_triggered].
    rewrite <- Hc. apply surjective_pairing.
Qed.

Lemma apply_fires_iff_enabled_and_condition_witness :
  (AutomationRule.enabled (light_off_rule false) = false
   /\ AutomationRule.apply sample_clock (light_off_rule false)
        [Light living_room_light] 0%nat
      = ((false, light_off_rule false, [Light living_room_light]), 0%nat))
  /\ (AutomationRule.enabled create_security_rule = true
      /\ fst (AutomationRule.condition create_security_rule
                [Light living_room_light] 0%nat) = false
      /\ AutomationRule.apply sample_clock create_security_rule
           [Light living_room_light] 0%nat
         = ((false, create_security_rule, [Light living_room_light]), 0%nat))
  /\ (AutomationRule.enabled (light_off_rule true) = true
      /\ fst (AutomationRule.condition (light_off_rule true)
                [Light living_room_light] 0%nat) = true
      /\ fst (fst (fst (AutomationRule.apply sample_clock
                          (light_off_rule true)
                          [Light living_room_light] 0%nat))) = true
      /\ AutomationRule.last_triggered
           (snd (fst (fst (AutomationRule.apply sample_clock
                             (light_off_rule true)
                             [Light living_room_light] 0%nat))))
         = Some (seconds (sample_clock 0%nat)))
  /\ (fst (AutomationRule.condition (light_off_rule true)
             (motion_lighting_action [Light living_room_light]) 1%nat)
      = false
      /\ fst (fst (fst (AutomationRule.apply sample_clock
                          (AutomationRule.set_last_triggered
                             (Some (seconds (sample_clock 0%nat)))
                             (light_off_rule true))
                          (motion_lighting_action [Light living_room_light])
                          1%nat))) = false).
Proof.
  pose proof (apply_fires_iff_enabled_and_condition sample_clock
                (light_off_rule false) [Light living_room_light] 0%nat)
    as (H1 & _).
  pose proof (apply_fires_iff_enabled_and_condition sample_clock
                create_security_rule [Light living_room_light] 0%nat)
    as (_ & H2 & _).
  pose proof (apply_fires_iff_enabled_and_condition sample_clock
                (light_off_rule true) [Light living_room_light] 0%nat)
    as (_ & _ & H3 & H4).
  split; [| split; [| split]].
  - split; [reflexivity | exact (H1 eq_refl)].
  - split; [reflexivity | split; [reflexivity |]].
    exact (H2 eq_refl eq_refl).
  - split; [reflexivity | split; [reflexivity |]].
    split.
    + exact (f_equal (fun r => fst (fst (fst r)))
               (proj1 (H3 eq_refl eq_refl))).
    + exact (proj1 (proj2 (H3 eq_refl eq_refl))).
  - split; [reflexivity |].
    exact (f_equal (fun r => fst (fst (fst r)))
             (H4 _ _ _ (proj1 (H3 eq_refl eq_refl)) eq_refl)).
Defined.

(** ** The Auto Lock rule *)

Lemma security_action_at (devices : list Device) (i : nat) (d : SmartDoor.t) :
  nth_error devices i = Some (Door d) ->
  SmartDevice.status (SmartDoor.base d) = true ->
  nth_error (security_action devices) i
  = Some (Door (SmartDoor.set_locked true d)).
Proof.
  intros Hi Hs. unfold security_action.
  rewrite nth_error_map, Hi. simpl. now rewrite Hs.
Qed.

(** A door that is off is handed back untouched. *)
Lemma security_action_skips_off_door (devices : list Device) (i : nat)
    (d : SmartDoor.t) :
  nth_error devices i = Some (Door d) ->
  SmartDevice.status (SmartDoor.base d) = false ->
  nth_error (security_action devices) i = Some (Door d).
Proof.
  intros Hi Hs. unfold security_action.
  rewrite nth_error_map, Hi. simpl. now rewrite Hs.
Qed.

(** The claim of C7 as it is written fails on a door that is off (as
    every door is when created): with the front-door camera on and
    reporting no motion, the rule fires and the unlocked front door stays
    unlocked. *)
Lemma auto_lock_leaves_off_door_unlocked :
  SmartDevice.status (SecurityCamera.base front_camera) = true
  /\ SecurityCamera.motion_detected front_camera = false
  /\ SmartDoor.locked unlocked_front_door = false
  /\ (let '(fired, _, devices, _) :=
        AutomationRule.apply sample_clock create_security_rule
          [Camera front_camera; Door unlocked_front_door] 0%nat in
      fired = true
      /\ devices = [Camera front_camera; Door unlocked_front_door]).
Proof. repeat split. Qed.

(** C7 (amended).  On a registry that holds a camera that is on, where no
    camera that is on reports motion, applying the Auto Lock rule fires and
    leaves every door whose on flag is true locked, in its place in the
    registry and otherwise as it was. *)
Theorem auto_lock_locks_enabled_door
    (clock : Clock) (devices : list Device) (n : nat)
    (c : SecurityCamera.t) (d : SmartDoor.t) (i : nat) :
  In (Camera c) devices ->
  SmartDevice.status (SecurityCamera.base c) = true ->
  (forall c', In (Camera c') devices ->
              SmartDevice.status (SecurityCamera.base c') = true ->
              SecurityCamera.motion_detected c' = false) ->
  nth_error devices i = Some (Door d) ->
  SmartDevice.status (SmartDoor.base d) = true ->
  let '(fired, _, devices', _) :=
    AutomationRule.apply clock create_security_rule devices n in
  fired = true
  /\ nth_error devices' i = Some (Door (SmartDoor.set_locked true d))
  /\ SmartDoor.locked (SmartDoor.set_locked true d) = true.
Proof.
  intros Hin Hon Hquiet Hi Hs.
  assert (Hc : security_condition devices = true).
  { apply security_condition_true_iff. split; [exists c |]; auto. }
  rewrite (apply_condition_true clock create_security_rule devices n n n
             (security_action devices) eq_refl).
  - repeat split. now apply security_action_at.
  - change (ret (security_condition devices) n = (true, n)).
    now rewrite Hc.
  - reflexivity.
Qed.

Lemma auto_lock_locks_enabled_door_witness :
  In (Camera front_camera) [Camera front_camera; Door enabled_front_door]
  /\ SmartDevice.status (SecurityCamera.base front_camera) = true
  /\ SmartDoor.locked enabled_front_door = false
  /\ nth_error (snd (fst (AutomationRule.apply sample_clock
                            create_security_rule
                            [Camera front_camera; Door enabled_front_door]
                            0%nat))) 1
     = Some (Door (SmartDoor.set_locked true enabled_front_door)).
Proof.
  split; [now left | split; [reflexivity | split; [reflexivity |]]].
  assert (Hquiet : forall c',
             In (Camera c') [Camera front_camera; Door enabled_front_door] ->
             SmartDevice.status (SecurityCamera.base c') = true ->
             SecurityCamera.motion_detected c' = false).
  { intros c' [Hc | [Hc | []]] _; [| discriminate].
    injection Hc as <-. reflexivity. }
  exact (proj1 (proj2
           (auto_lock_locks_enabled_door sample_clock
              [Camera front_camera; Door enabled_front_door] 0%nat
              front_camera enabled_front_door 1%nat
              (or_introl eq_refl) eq_refl Hquiet eq_refl eq_refl))).
Defined.

(** ** One automation pass *)

Lemma run_rules_applies_every_rule (clock : Clock)
    (rules : list AutomationRule.t) :
  forall (devices : list Device) (n : nat),
    AutomationSystem.run_rules clock rules devices n
    = apply_every_rule clock rules devices n.
Proof.
  induction rules as [| rule rest IH]; intros devices n; [reflexivity |].
  cbn [AutomationSystem.run_rules apply_every_rule].
  destruct (AutomationRule.enabled rule) eqn:He.
  - unfold bind.
    destruct (AutomationRule.apply clock rule devices n)
      as [[[fired rule'] devices'] n'].
    rewrite IH.
    now destruct (apply_every_rule clock rest devices' n') as [[rest' ds] n''].
  - rewrite (apply_disabled clock rule devices n He).
    unfold bind. rewrite IH.
    now destruct (apply_every_rule clock rest devices n) as [[rest' ds] n''].
Qed.

(** Applying every rule of [rules ++ more] is applying every rule of
    [rules], then every rule of [more] to the registry that leaves. *)
Lemma apply_every_rule_app (clock : Clock) (rules more : list AutomationRule.t) :
  forall (devices : list Device) (n : nat),
    apply_every_rule clock (rules ++ more)%list devices n
    = let '(rules', devices', n') := apply_every_rule clock rules devices n in
      let '(more', devices'', n'') :=
        apply_every_rule clock more devices' n' in
      ((rules' ++ more')%list, devices'', n'').
Proof.
  induction rules as [| rule rest IH]; intros devices n.
  - cbn. now destruct (apply_every_rule clock more devices n) as [[? ?] ?].
  - cbn [app apply_every_rule].
    destruct (AutomationRule.apply clock rule devices n)
      as [[[fired rule'] devices'] n'].
    rewrite IH.
    destruct (apply_every_rule clock rest devices' n') as [[rest' ds] n''].
    now destruct (apply_every_rule clock more ds n'') as [[? ?] ?].
Qed.

(** C1.  A pass of a disabled system returns the system as it was: devices,
    rules and [last_execution], with no reading of the clock.  A pass of an
    enabled system stores the clock's reading in [last_execution], then
    applies every rule of the list in order, each to the registry its
    predecessors left, whether or not any of them fired. *)
Theorem execute_rules_pass
    (clock : Clock) (system : AutomationSystem.t) (n : nat) :
  (AutomationSystem.enabled system = false ->
     AutomationSystem.execute_rules clock system n = (system, n))
  /\ (AutomationSystem.enabled system = true ->
      let '(rules', devices', n') :=
        apply_every_rule clock (AutomationSystem.rules system)
          (AutomationSystem.devices system) (S n) in
      AutomationSystem.execute_rules clock system n
      = ({| AutomationSystem.devices := devices';
            AutomationSystem.rules := rules';
            AutomationSystem.enabled := true;
            AutomationSystem.last_execution := seconds (clock n);
            AutomationSystem.motion_timer :=
              AutomationSystem.motion_timer system |},
         n')).
Proof.
  split; intros He; unfold AutomationSystem.execute_rules; rewrite He;
    cbn [negb]; [reflexivity |].
  unfold bind, time_time.
  cbn [AutomationSystem.with_last_execution AutomationSystem.rules
       AutomationSystem.devices].
  rewrite run_rules_applies_every_rule.
  destruct (apply_every_rule clock (AutomationSystem.rules system)
              (AutomationSystem.devices system) (S n))
    as [[rules' devices'] n'].
  unfold ret, AutomationSystem.with_devices, AutomationSystem.with_rules.
  cbn. now rewrite He.
Qed.

Lemma execute_rules_pass_witness :
  (AutomationSystem.enabled paused_system = false
   /\ AutomationSystem.execute_rules sample_clock paused_system 5%nat
      = (paused_system, 5%nat))
  /\ (AutomationSystem.enabled sample_system = true
      /\ AutomationSystem.last_execution
           (fst (AutomationSystem.execute_rules sample_clock sample_system
                   5%nat))
         = seconds (sample_clock 5%nat)
      /\ nth_error
           (AutomationSystem.devices
              (fst (AutomationSystem.execute_rules sample_clock sample_system
                      5%nat))) 2
         = Some (Door (SmartDoor.set_locked true enabled_front_door))).
Proof.
  split.
  - split; [reflexivity |].
    exact (proj1 (execute_rules_pass sample_clock paused_system 5%nat)
                 eq_refl).
  - split; [reflexivity |].
    pose proof (proj2 (execute_rules_pass sample_clock sample_system 5%nat)
                      eq_refl) as H.
    vm_compute in H.
    split.
    + exact (f_equal (fun r => AutomationSystem.last_execution (fst r)) H).
    + exact (f_equal (fun r => nth_error (AutomationSystem.devices (fst r)) 2)
                     H).
Defined.

(** ** Thermostats: stepping toward the target *)

Local Open Scope Q_scope.

Lemma num_ltb_true_iff (x y : number) :
  num_ltb x y = true <-> num_val x < num_val y.
Proof.
  unfold num_ltb. rewrite Qlt_alt.
  destruct (num_val x ?= num_val y); intuition discriminate.
Qed.

Lemma num_ltb_false_iff (x y : number) :
  num_ltb x y = false <-> num_val y <= num_val x.
Proof.
  rewrite <- not_true_iff_false, num_ltb_true_iff. split.
  - apply Qnot_lt_le.
  - apply Qle_not_lt.
Qed.

(** *** Half degrees are exact in binary64 *)

Lemma half_degrees_cross (q : Q) (k : Z) :
  q == inject_Z k * (1 # 2) ->
  (Z.abs (Qnum q) * 2 = Z.abs k * Zpos (Qden q))%Z.
Proof.
  unfold Qeq. cbn [Qnum Qden inject_Z Qmult]. intros H.
  rewrite Z.mul_1_r in H.
  change (Zpos (Qden q * 2)) with (Zpos (Qden q) * 2)%Z in H.
  assert (Hq : (Qnum q * 2 = k * Zpos (Qden q))%Z) by lia.
  rewrite <- (Z.abs_eq (Zpos (Qden q))) at 1 by lia.
  rewrite <- Z.abs_mul, <- Hq, Z.abs_mul. reflexivity.
Qed.

(** A whole number of half degrees of magnitude up to [2^52] is a
    binary64 number. *)
Lemma representable_half_degrees (q : Q) (k : Z) :
  q == inject_Z k * (1 # 2) ->
  (Z.abs k <= 2 ^ 53)%Z ->
  representable q = true.
Proof.
  intros Hq Hk. apply half_degrees_cross in Hq.
  unfold representable.
  set (a := Z.abs (Qnum q)) in *. set (d := Zpos (Qden q)) in *.
  set (j := Z.abs k) in *.
  assert (Hd : (0 < d)%Z) by (subst d; lia).
  assert (Hj : (0 <= j)%Z) by (subst j; lia).
  assert (Hscaled : (a * 2 ^ 1074 = j * 2 ^ 1073 * d)%Z).
  { change (2 ^ 1074)%Z with (2 * 2 ^ 1073)%Z.
    rewrite Z.mul_assoc, Hq. ring. }
  rewrite Hscaled, Z.mod_mul, Z.div_mul by lia.
  rewrite Z.eqb_refl. cbn [andb].
  apply andb_true_iff. split.
  - apply Z.eqb_eq.
    destruct (Z.eq_dec j 0) as [-> | Hj0]; [reflexivity |].
    assert (Hlog : (Z.log2 (j * 2 ^ 1073) = 1073 + Z.log2 j)%Z)
      by (apply Z.log2_mul_pow2; lia).
    rewrite Hlog.
    assert (Hl53 : (Z.log2 j <= 53)%Z).
    { change 53%Z with (Z.log2 (2 ^ 53)). now apply Z.log2_le_mono. }
    assert (Hl0 : (0 <= Z.log2 j)%Z) by apply Z.log2_nonneg.
    rewrite Z.max_r by lia.
    destruct (Z.eq_dec (Z.log2 j) 53) as [E | E].
    + assert (Hj53 : j = (2 ^ 53)%Z).
      { apply Z.le_antisymm; [assumption |].
        rewrite <- E. apply Z.log2_spec. lia. }
      rewrite E, Hj53. rewrite <- Z.pow_add_r by lia.
      replace (53 + 1073)%Z with (52 + (1073 + 53 - 52))%Z by lia.
      rewrite Z.pow_add_r by lia. apply Z.mod_mul.
      apply Z.pow_nonzero; lia.
    + replace 1073%Z with ((1073 - (1073 + Z.log2 j - 52))
                           + (1073 + Z.log2 j - 52))%Z at 1 by lia.
      rewrite Z.pow_add_r by lia.
      rewrite Z.mul_assoc. apply Z.mod_mul. apply Z.pow_nonzero; lia.
  - apply Z.ltb_lt.
    assert (Ha : (a * 2 <= 2 ^ 53 * d)%Z) by (rewrite Hq; nia).
    change (2 ^ 53)%Z with (2 * 2 ^ 52)%Z in Ha.
    assert (H52 : (2 ^ 52 < 2 ^ 1024)%Z) by (apply Z.pow_lt_mono_r; lia).
    nia.
Qed.

Lemma round_binary64_half_degrees (q : Q) (k : Z) :
  q == inject_Z k * (1 # 2) ->
  (Z.abs k <= 2 ^ 53)%Z ->
  round_binary64 q == inject_Z k * (1 # 2).
Proof.
  intros Hq Hk. unfold round_binary64.
  rewrite (representable_half_degrees q k Hq Hk), Qred_correct. exact Hq.
Qed.

Lemma to_float_half_degrees (x : number) (k : Z) :
  num_val x == inject_Z k * (1 # 2) ->
  (Z.abs k <= 2 ^ 53)%Z ->
  to_float x == inject_Z k * (1 # 2).
Proof.
  destruct x as [z | q]; cbn [num_val to_float]; intros Hx Hk;
    [| exact Hx].
  now apply round_binary64_half_degrees.
Qed.

Lemma half_degrees_succ (k : Z) :
  inject_Z (k + 1) * (1 # 2) == inject_Z k * (1 # 2) + (1 # 2).
Proof.
  rewrite inject_Z_plus. change (inject_Z 1) with 1. lra.
Qed.

Lemma half_degrees_pred (k : Z) :
  inject_Z (k - 1) * (1 # 2) == inject_Z k * (1 # 2) - (1 # 2).
Proof.
  unfold Z.sub. rewrite inject_Z_plus, inject_Z_opp.
  change (inject_Z 1) with 1. lra.
Qed.

(** Adding 0.5 to [k] half degrees gives [k + 1] half degrees, exactly, as
    long as both are of magnitude up to [2^52]. *)
Lemma num_add_float_half_degrees (x : number) (k : Z) :
  num_val x == inject_Z k * (1 # 2) ->
  (Z.abs k <= 2 ^ 53)%Z -> (Z.abs (k + 1) <= 2 ^ 53)%Z ->
  num_val (num_add_float x (1 # 2)) == inject_Z (k + 1) * (1 # 2).
Proof.
  intros Hx Hk Hk1. unfold num_add_float. cbn [num_val].
  apply round_binary64_half_degrees; [| assumption].
  rewrite (to_float_half_degrees x k Hx Hk). symmetry.
  apply half_degrees_succ.
Qed.

Lemma num_sub_float_half_degrees (x : number) (k : Z) :
  num_val x == inject_Z k * (1 # 2) ->
  (Z.abs k <= 2 ^ 53)%Z -> (Z.abs (k - 1) <= 2 ^ 53)%Z ->
  num_val (num_sub_float x (1 # 2)) == inject_Z (k - 1) * (1 # 2).
Proof.
  intros Hx Hk Hk1. unfold num_sub_float. cbn [num_val].
  apply round_binary64_half_degrees; [| assumption].
  rewrite (to_float_half_degrees x k Hx Hk). symmetry.
  apply half_degrees_pred.
Qed.

(** Where the step is not exact: one tenth plus one half is the float
    nearest to six tenths, at [2^53] the half is lost, and a tie goes to
    the even mantissa. *)
Lemma binary64_rounding_examples :
  round_binary64 ((3602879701896397 # 36028797018963968) + (1 # 2))
  = 5404319552844595 # 9007199254740992
  /\ round_binary64 (6 # 10) = 5404319552844595 # 9007199254740992
  /\ round_binary64 (9007199254740992 + (1 # 2)) = 9007199254740992
  /\ round_binary64 ((63 # 2) + (1 # 281474976710656) + (1 # 2)) = 32
  /\ to_float (PyInt 9007199254740993) = 9007199254740992.
Proof. vm_compute. repeat split. Qed.

Section ThermostatStep.

Variable t : Thermostat.t.

Let T : Q := num_val (Thermostat.temperature t).
Let G : Q := num_val (Thermostat.target_temp t).

Lemma update_temp_color_keeps (u : Thermostat.t) :
  Thermostat.temperature (Thermostat.update_temp_color u)
  = Thermostat.temperature u
  /\ Thermostat.target_temp (Thermostat.update_temp_color u)
     = Thermostat.target_temp u.
Proof.
  unfold Thermostat.update_temp_color.
  case_guards; split; reflexivity.
Qed.

Lemma update_current_temp_target :
  Thermostat.target_temp (Thermostat.update_current_temp t)
  = Thermostat.target_temp t.
Proof.
  unfold Thermostat.update_current_temp.
  rewrite (proj2 (update_temp_color_keeps _)).
  case_guards; reflexivity.
Qed.

Lemma update_current_temp_below :
  T < G ->
  Thermostat.temperature (Thermostat.update_current_temp t)
  = num_add_float (Thermostat.temperature t) (1 # 2).
Proof.
  intros H. apply num_ltb_true_iff in H.
  unfold Thermostat.update_current_temp.
  rewrite (proj1 (update_temp_color_keeps _)), H. reflexivity.
Qed.

Lemma update_current_temp_above :
  G < T ->
  Thermostat.temperature (Thermostat.update_current_temp t)
  = num_sub_float (Thermostat.temperature t) (1 # 2).
Proof.
  intros H. assert (Hn : num_ltb (Thermostat.temperature t)
                                 (Thermostat.target_temp t) = false).
  { apply num_ltb_false_iff. now apply Qlt_le_weak. }
  apply num_ltb_true_iff in H.
  unfold Thermostat.update_current_temp, num_gtb.
  rewrite (proj1 (update_temp_color_keeps _)), Hn, H. reflexivity.
Qed.

Lemma update_current_temp_at_target :
  T == G ->
  Thermostat.temperature (Thermostat.update_current_temp t)
  = Thermostat.temperature t.
Proof.
  intros H.
  assert (H1 : num_ltb (Thermostat.temperature t)
                       (Thermostat.target_temp t) = false).
  { apply num_ltb_false_iff. fold T G. rewrite H. apply Qle_refl. }
  assert (H2 : num_ltb (Thermostat.target_temp t)
                       (Thermostat.temperature t) = false).
  { apply num_ltb_false_iff. fold T G. rewrite H. apply Qle_refl. }
  unfold Thermostat.update_current_temp, num_gtb.
  rewrite (proj1 (update_temp_color_keeps _)), H1, H2. reflexivity.
Qed.

(** A step up from [k] half degrees. *)
Lemma update_current_temp_step_up (k : Z) :
  T == inject_Z k * (1 # 2) ->
  (Z.abs k <= 2 ^ 53)%Z -> (Z.abs (k + 1) <= 2 ^ 53)%Z ->
  T < G ->
  num_val (Thermostat.temperature (Thermostat.update_current_temp t))
  == inject_Z (k + 1) * (1 # 2).
Proof.
  intros HT Hk Hk1 Hlt. rewrite (update_current_temp_below Hlt).
  now apply num_add_float_half_degrees.
Qed.

(** A step down from [k] half degrees. *)
Lemma update_current_temp_step_down (k : Z) :
  T == inject_Z k * (1 # 2) ->
  (Z.abs k <= 2 ^ 53)%Z -> (Z.abs (k - 1) <= 2 ^ 53)%Z ->
  G < T ->
  num_val (Thermostat.temperature (Thermostat.update_current_temp t))
  == inject_Z (k - 1) * (1 # 2).
Proof.
  intros HT Hk Hk1 Hgt. rewrite (update_current_temp_above Hgt).
  now apply num_sub_float_half_degrees.
Qed.

End ThermostatStep.

Lemma half_degrees_lt (a b : Z) :
  (a < b)%Z -> inject_Z a * (1 # 2) < inject_Z b * (1 # 2).
Proof.
  intros H. rewrite Zlt_Qlt in H. lra.
Qed.

(** Heating from [k0] half degrees to a target [k] half degrees higher:
    after [n] ticks the temperature is [k0 + min n k] half degrees. *)
Lemma ticks_heating (n : nat) :
  forall (k0 : Z) (k : nat) (t : Thermostat.t),
    num_val (Thermostat.temperature t) == inject_Z k0 * (1 # 2) ->
    (Z.abs k0 < 2 ^ 53)%Z -> (Z.abs (k0 + Z.of_nat k) < 2 ^ 53)%Z ->
    num_val (Thermostat.target_temp t)
    == inject_Z (k0 + Z.of_nat k) * (1 # 2) ->
    num_val (Thermostat.temperature (ticks n t))
    == inject_Z (k0 + Z.of_nat (Nat.min n k)) * (1 # 2).
Proof.
  induction n as [| n IH]; intros k0 k t HT Hk0 Hk HG.
  - cbn [ticks Nat.min Z.of_nat]. now rewrite Z.add_0_r.
  - cbn [ticks]. destruct k as [| k].
    + cbn [Z.of_nat] in HG. rewrite Z.add_0_r in HG.
      assert (Heq : num_val (Thermostat.temperature t)
                    == num_val (Thermostat.target_temp t))
        by (now rewrite HT, HG).
      rewrite Nat.min_0_r. rewrite <- (Nat.min_0_r n).
      apply IH; try assumption.
      * now rewrite (update_current_temp_at_target t Heq).
      * cbn [Z.of_nat]. rewrite Z.add_0_r, update_current_temp_target.
        exact HG.
    + assert (Hlt : num_val (Thermostat.temperature t)
                    < num_val (Thermostat.target_temp t)).
      { rewrite HT, HG. apply half_degrees_lt. lia. }
      cbn [Nat.min].
      replace (k0 + Z.of_nat (S (Nat.min n k)))%Z
        with (k0 + 1 + Z.of_nat (Nat.min n k))%Z by lia.
      apply IH.
      * apply update_current_temp_step_up; try assumption; lia.
      * lia.
      * lia.
      * rewrite update_current_temp_target, HG.
        replace (k0 + Z.of_nat (S k))%Z with (k0 + 1 + Z.of_nat k)%Z by lia.
        reflexivity.
Qed.

(** Cooling from [k0] half degrees to a target [k] half degrees lower. *)
Lemma ticks_cooling (n : nat) :
  forall (k0 : Z) (k : nat) (t : Thermostat.t),
    num_val (Thermostat.temperature t) == inject_Z k0 * (1 # 2) ->
    (Z.abs k0 < 2 ^ 53)%Z -> (Z.abs (k0 - Z.of_nat k) < 2 ^ 53)%Z ->
    num_val (Thermostat.target_temp t)
    == inject_Z (k0 - Z.of_nat k) * (1 # 2) ->
    num_val (Thermostat.temperature (ticks n t))
    == inject_Z (k0 - Z.of_nat (Nat.min n k)) * (1 # 2).
Proof.
  induction n as [| n IH]; intros k0 k t HT Hk0 Hk HG.
  - cbn [ticks Nat.min Z.of_nat]. now rewrite Z.sub_0_r.
  - cbn [ticks]. destruct k as [| k].
    + cbn [Z.of_nat] in HG. rewrite Z.sub_0_r in HG.
      assert (Heq : num_val (Thermostat.temperature t)
                    == num_val (Thermostat.target_temp t))
        by (now rewrite HT, HG).
      rewrite Nat.min_0_r. rewrite <- (Nat.min_0_r n).
      apply IH; try assumption.
      * now rewrite (update_current_temp_at_target t Heq).
      * cbn [Z.of_nat]. rewrite Z.sub_0_r, update_current_temp_target.
        exact HG.
    + assert (Hgt : num_val (Thermostat.target_temp t)
                    < num_val (Thermostat.temperature t)).
      { rewrite HT, HG. apply half_degrees_lt. lia. }
      cbn [Nat.min].
      replace (k0 - Z.of_nat (S (Nat.min n k)))%Z
        with (k0 - 1 - Z.of_nat (Nat.min n k))%Z by lia.
      apply IH.
      * apply update_current_temp_step_down; try assumption; lia.
      * lia.
      * lia.
      * rewrite update_current_temp_target, HG.
        replace (k0 - Z.of_nat (S k))%Z with (k0 - 1 - Z.of_nat k)%Z by lia.
        reflexivity.
Qed.

(** The claim of C5 as it is written fails when the target is closer than
    half a degree: from 20 with target 20.25 one call yields 20.5, past the
    target. *)
Lemma update_current_temp_steps_past_target :
  Thermostat.temperature thermostat_20_to_20_25 = PyInt 20
  /\ Thermostat.target_temp thermostat_20_to_20_25 = PyFloat (81 # 4)
  /\ Thermostat.temperature
       (Thermostat.update_current_temp thermostat_20_to_20_25)
     = PyFloat (41 # 2)
  /\ num_val (Thermostat.target_temp thermostat_20_to_20_25)
     < num_val (Thermostat.temperature
                  (Thermostat.update_current_temp thermostat_20_to_20_25)).
Proof.
  split; [reflexivity | split; [reflexivity | split]];
    vm_compute; reflexivity.
Qed.

(** With that target the thermostat never settles: from the first tick on
    it alternates between 20.5 and 20. *)
Lemma off_grid_target_oscillates (n : nat) :
  let above := Thermostat.update_current_temp thermostat_20_to_20_25 in
  let below := Thermostat.update_current_temp above in
  ticks n above = above \/ ticks n above = below.
Proof.
  cbv zeta.
  set (above := Thermostat.update_current_temp thermostat_20_to_20_25).
  set (below := Thermostat.update_current_temp above).
  assert (Hback : Thermostat.update_current_temp below = above)
    by (vm_compute; reflexivity).
  assert (Hboth : forall s, s = above \/ s = below ->
                            ticks n s = above \/ ticks n s = below).
  { induction n as [| n IH]; intros s Hs; [exact Hs |].
    cbn [ticks]. apply IH.
    destruct Hs as [-> | ->]; [right; reflexivity | left; exact Hback]. }
  apply Hboth. now left.
Qed.

(** Far from the half degrees the simulator walks on, the step is not
    half a degree: at [2^53] with a higher target the temperature does not
    move at all. *)
Lemma update_current_temp_lost_at_two_to_53 :
  let t := Thermostat.with_temperature (PyFloat 9007199254740992)
             (Thermostat.set_temperature (PyFloat 9007199254740994)
                living_room_thermostat) in
  Thermostat.temperature (Thermostat.update_current_temp t)
  = PyFloat 9007199254740992.
Proof. vm_compute. reflexivity. Qed.

(** C5 (amended).  For a thermostat whose current temperature is a whole
    number of half degrees of magnitude below [2^52] (where the
    floating-point step is exact), one call to [update_current_temp] moves
    the current temperature by exactly 0.5 toward the target when the two
    differ and leaves it alone when they are equal; the step ends at or
    before the target whenever the two were at least 0.5 apart.  Starting
    at 20 with target 22, the first call yields 20.5, four calls reach
    exactly 22, and every further call leaves the temperature at 22. *)
Theorem update_current_temp_half_step (t : Thermostat.t) (k : Z) :
  is_half_degrees (Thermostat.temperature t) k ->
  let T := num_val (Thermostat.temperature t) in
  let G := num_val (Thermostat.target_temp t) in
  let T' := num_val (Thermostat.temperature
                       (Thermostat.update_current_temp t)) in
  (T < G -> T' == T + (1 # 2))
  /\ (G < T -> T' == T - (1 # 2))
  /\ (T == G ->
      Thermostat.temperature (Thermostat.update_current_temp t)
      = Thermostat.temperature t)
  /\ (T + (1 # 2) <= G -> T < T' /\ T' <= G)
  /\ (G + (1 # 2) <= T -> G <= T' /\ T' < T)
  /\ (T == 20 -> G == 22 ->
      T' == 41 # 2
      /\ num_val (Thermostat.temperature (ticks 4 t)) == 22
      /\ forall n, (4 <= n)%nat ->
                   num_val (Thermostat.temperature (ticks n t)) == 22).
Proof.
  intros (Hk & HT). cbv zeta.
  assert (Hup : num_val (Thermostat.temperature t)
                < num_val (Thermostat.target_temp t) ->
                num_val (Thermostat.temperature
                           (Thermostat.update_current_temp t))
                == num_val (Thermostat.temperature t) + (1 # 2)).
  { intros H.
    rewrite (update_current_temp_step_up t k HT) by (assumption || lia).
    rewrite HT. apply half_degrees_succ. }
  assert (Hdown : num_val (Thermostat.target_temp t)
                  < num_val (Thermostat.temperature t) ->
                  num_val (Thermostat.temperature
                             (Thermostat.update_current_temp t))
                  == num_val (Thermostat.temperature t) - (1 # 2)).
  { intros H.
    rewrite (update_current_temp_step_down t k HT) by (assumption || lia).
    rewrite HT. apply half_degrees_pred. }
  split; [exact Hup | split; [exact Hdown | split; [| split; [| split]]]].
  - apply update_current_temp_at_target.
  - intros H. rewrite Hup by lra. lra.
  - intros H. rewrite Hdown by lra. lra.
  - intros H20 H22.
    assert (HT40 : num_val (Thermostat.temperature t)
                   == inject_Z 40 * (1 # 2)) by (rewrite H20; reflexivity).
    assert (HG44 : num_val (Thermostat.target_temp t)
                   == inject_Z (40 + Z.of_nat 4) * (1 # 2))
      by (rewrite H22; reflexivity).
    assert (H40 : (Z.abs 40 < 2 ^ 53)%Z) by reflexivity.
    assert (H44 : (Z.abs (40 + Z.of_nat 4) < 2 ^ 53)%Z) by reflexivity.
    split; [| split].
    + rewrite Hup by lra. rewrite H20. reflexivity.
    + rewrite (ticks_heating 4 40 4 t HT40 H40 H44 HG44). reflexivity.
    + intros n Hn. rewrite (ticks_heating n 40 4 t HT40 H40 H44 HG44).
      rewrite Nat.min_r by assumption. reflexivity.
Qed.

Lemma update_current_temp_half_step_witness :
  (is_half_degrees (Thermostat.temperature thermostat_20_to_22) 40
   /\ num_val (Thermostat.temperature thermostat_20_to_22) == 20
   /\ num_val (Thermostat.target_temp thermostat_20_to_22) == 22
   /\ num_val (Thermostat.temperature
                 (Thermostat.update_current_temp thermostat_20_to_22))
      == 41 # 2
   /\ num_val (Thermostat.temperature
                 (Thermostat.update_current_temp thermostat_20_to_22))
      <= num_val (Thermostat.target_temp thermostat_20_to_22)
   /\ num_val (Thermostat.temperature (ticks 4 thermostat_20_to_22)) == 22
   /\ num_val (Thermostat.temperature (ticks 9 thermostat_20_to_22)) == 22)
  /\ (is_half_degrees (Thermostat.temperature thermostat_20_to_18) 40
      /\ num_val (Thermostat.target_temp thermostat_20_to_18) + (1 # 2)
         <= num_val (Thermostat.temperature thermostat_20_to_18)
      /\ num_val (Thermostat.temperature
                    (Thermostat.update_current_temp thermostat_20_to_18))
         == 39 # 2
      /\ num_val (Thermostat.target_temp thermostat_20_to_18)
         <= num_val (Thermostat.temperature
                       (Thermostat.update_current_temp thermostat_20_to_18)))
  /\ (is_half_degrees (Thermostat.temperature living_room_thermostat) 40
      /\ num_val (Thermostat.temperature living_room_thermostat)
         == num_val (Thermostat.target_temp living_room_thermostat)
      /\ Thermostat.temperature
           (Thermostat.update_current_temp living_room_thermostat)
         = PyInt 20).
Proof.
  assert (Hgrid : forall t, Thermostat.temperature t = PyInt 20 ->
                            is_half_degrees (Thermostat.temperature t) 40).
  { intros t ->. split; reflexivity. }
  assert (G22 : is_half_degrees (Thermostat.temperature thermostat_20_to_22)
                                40) by (apply Hgrid; reflexivity).
  assert (G18 : is_half_degrees (Thermostat.temperature thermostat_20_to_18)
                                40) by (apply Hgrid; reflexivity).
  assert (G20 : is_half_degrees (Thermostat.temperature living_room_thermostat)
                                40) by (apply Hgrid; reflexivity).
  pose proof (update_current_temp_half_step thermostat_20_to_22 40 G22)
    as (Hup & _ & _ & Hclamp & _ & H22).
  pose proof (update_current_temp_half_step thermostat_20_to_18 40 G18)
    as (_ & Hdown & _ & _ & Hclamp' & _).
  pose proof (update_current_temp_half_step living_room_thermostat 40 G20)
    as (_ & _ & Hstay & _).
  assert (E20 : num_val (Thermostat.temperature thermostat_20_to_22) == 20)
    by reflexivity.
  assert (E22 : num_val (Thermostat.target_temp thermostat_20_to_22) == 22)
    by reflexivity.
  assert (Hlt : num_val (Thermostat.temperature thermostat_20_to_22)
                < num_val (Thermostat.target_temp thermostat_20_to_22))
    by reflexivity.
  assert (Hfar : num_val (Thermostat.temperature thermostat_20_to_22)
                 + (1 # 2)
                 <= num_val (Thermostat.target_temp thermostat_20_to_22))
    by (vm_compute; discriminate).
  destruct (H22 E20 E22) as (_ & H4 & Hn).
  split; [| split].
  - split; [exact G22 |].
    split; [exact E20 | split; [exact E22 | split; [exact (Hup Hlt) |]]].
    split; [exact (proj2 (Hclamp Hfar)) |].
    split; [exact H4 | apply Hn; lia].
  - assert (Hle : num_val (Thermostat.target_temp thermostat_20_to_18)
                  + (1 # 2)
                  <= num_val (Thermostat.temperature thermostat_20_to_18))
      by (vm_compute; discriminate).
    assert (Hgt : num_val (Thermostat.target_temp thermostat_20_to_18)
                  < num_val (Thermostat.temperature thermostat_20_to_18))
      by reflexivity.
    split; [exact G18 |].
    split; [exact Hle | split; [exact (Hdown Hgt) |]].
    exact (proj1 (Hclamp' Hle)).
  - assert (Heq : num_val (Thermostat.temperature living_room_thermostat)
                  == num_val (Thermostat.target_temp living_room_thermostat))
      by reflexivity.
    split; [exact G20 |].
    split; [exact Heq | exact (Hstay Heq)].
Defined.

(** * Further properties *)

Local Close Scope Q_scope.

(** ** Lights: colour temperature *)

(** X1.  [update_light_color] gives the light the colour of a palette key
    at the least distance from its colour temperature, and of the lowest
    such key when two are equally near; brightness, colour temperature and
    the on flag are not touched. *)
Theorem update_light_color_picks_nearest (self : SmartLight.t) :
  let ct := SmartLight.color_temp self in
  let self' := SmartLight.update_light_color self in
  (exists k,
      In (k, SmartDevice.color (SmartLight.base self')) SmartLight.light_colors
      /\ (forall k' c', In (k', c') SmartLight.light_colors ->
                        kelvin_distance ct k <= kelvin_distance ct k')
      /\ (forall k' c', In (k', c') SmartLight.light_colors ->
                        kelvin_distance ct k' = kelvin_distance ct k ->
                        k <= k'))
  /\ SmartLight.brightness self' = SmartLight.brightness self
  /\ SmartLight.color_temp self' = ct
  /\ SmartDevice.status (SmartLight.base self')
     = SmartDevice.status (SmartLight.base self).
Proof.
  cbv zeta. split; [| repeat split].
  unfold SmartLight.update_light_color.
  cbn [SmartLight.base SmartLight.with_base SmartDevice.color
       SmartDevice.set_color SmartLight.light_colors hd tl
       SmartLight.closest fst snd].
  repeat match goal with
         | |- context [if ?a <? ?b then _ else _] =>
             destruct (Z.ltb_spec a b)
         end;
    cbn [snd];
    match goal with
    | |- exists k, In (k, ?c) _ /\ _ =>
        first [ exists 3000; split; [cbn; tauto |]
              | exists 4000; split; [cbn; tauto |]
              | exists 5000; split; [cbn; tauto |]
              | exists 6000; split; [cbn; tauto |] ]
    end;
    (split; intros k' c' Hin; cbn in Hin;
     repeat match goal with
            | H : _ \/ _ |- _ => destruct H
            | H : (_, _) = (_, _) |- _ => injection H as <- <-
            | H : False |- _ => destruct H
            end;
     unfold kelvin_distance in *; lia).
Qed.

(** X2.  [set_color_temp] stores the temperature clamped into
    [3000, 6000], leaves brightness and the on flag alone, and calling it
    again with the same argument changes nothing more. *)
Theorem set_color_temp_clamps (temp : Z) (self : SmartLight.t) :
  let self' := SmartLight.set_color_temp temp self in
  SmartLight.color_temp self' = clamp 3000 6000 temp
  /\ 3000 <= SmartLight.color_temp self' <= 6000
  /\ SmartLight.brightness self' = SmartLight.brightness self
  /\ SmartDevice.status (SmartLight.base self')
     = SmartDevice.status (SmartLight.base self)
  /\ SmartLight.set_color_temp temp self' = self'
  /\ SmartLight.set_color_temp (SmartLight.color_temp self') self' = self'.
Proof.
  cbv zeta.
  assert (Hidem : forall x, 3000 <= x <= 6000 -> clamp 3000 6000 x = x)
    by (intros x Hx; unfold clamp; lia).
  assert (Hrange : 3000 <= clamp 3000 6000 temp <= 6000)
    by (unfold clamp; lia).
  split; [reflexivity |].
  split; [exact Hrange |].
  split; [reflexivity |].
  split; [reflexivity |].
  split.
  - unfold SmartLight.set_color_temp, SmartLight.update_light_color.
    cbn [SmartLight.color_temp SmartLight.base SmartLight.brightness
         SmartLight.with_base].
    reflexivity.
  - unfold SmartLight.set_color_temp, SmartLight.update_light_color.
    cbn [SmartLight.color_temp SmartLight.base SmartLight.brightness
         SmartLight.with_base].
    rewrite (Hidem _ Hrange). reflexivity.
Qed.

(** ** Thermostats: mode and colour *)

(** X3.  [set_mode] accepts exactly the three lower-case mode names: an
    accepted name is stored and nothing else changes; with any other
    string the thermostat is returned as it was. *)
Theorem set_mode_accepts_three_modes (m : string) (t : Thermostat.t) :
  (m = "heat" \/ m = "cool" \/ m = "auto" ->
     Thermostat.mode (Thermostat.set_mode m t) = m
     /\ Thermostat.base (Thermostat.set_mode m t) = Thermostat.base t
     /\ Thermostat.temperature (Thermostat.set_mode m t)
        = Thermostat.temperature t
     /\ Thermostat.target_temp (Thermostat.set_mode m t)
        = Thermostat.target_temp t
     /\ Thermostat.humidity (Thermostat.set_mode m t) = Thermostat.humidity t)
  /\ (m <> "heat" -> m <> "cool" -> m <> "auto" ->
      Thermostat.set_mode m t = t).
Proof.
  unfold Thermostat.set_mode. cbn [existsb].
  split.
  - intros [-> | [-> | ->]]; cbn; repeat split.
  - intros H1 H2 H3.
    destruct (String.eqb_spec m "heat"); [contradiction |].
    destruct (String.eqb_spec m "cool"); [contradiction |].
    destruct (String.eqb_spec m "auto"); [contradiction |].
    reflexivity.
Qed.

Lemma set_mode_accepts_three_modes_witness :
  Thermostat.mode (Thermostat.set_mode "cool" living_room_thermostat) = "cool"
  /\ Thermostat.set_mode "Heat" living_room_thermostat = living_room_thermostat.
Proof.
  pose proof (set_mode_accepts_three_modes "cool" living_room_thermostat)
    as (Hok & _).
  pose proof (set_mode_accepts_three_modes "Heat" living_room_thermostat)
    as (_ & Hno).
  split.
  - exact (proj1 (Hok (or_intror (or_introl eq_refl)))).
  - apply Hno; discriminate.
Defined.

Lemma update_temp_color_idempotent (t : Thermostat.t) :
  Thermostat.update_temp_color (Thermostat.update_temp_color t)
  = Thermostat.update_temp_color t.
Proof.
  unfold Thermostat.update_temp_color.
  destruct (num_ltb (Thermostat.temperature t) (PyInt 16)) eqn:E16;
    [cbn; rewrite E16; reflexivity |].
  destruct (num_ltb (Thermostat.temperature t) (PyInt 19)) eqn:E19;
    [cbn; rewrite E16, E19; reflexivity |].
  destruct (num_ltb (Thermostat.temperature t) (PyInt 23)) eqn:E23;
    [cbn; rewrite E16, E19, E23; reflexivity |].
  destruct (num_ltb (Thermostat.temperature t) (PyInt 26)) eqn:E26;
    cbn; rewrite E16, E19, E23, E26; reflexivity.
Qed.

(** X4.  The colour of a thermostat is the band of its current temperature
    ([update_temp_color] would not change it) when it is created and after
    every [update_current_temp]; [set_temperature] and [set_mode] keep it
    so.  [update_current_temp] changes nothing but the temperature and the
    colour. *)
Theorem thermostat_colour_follows_temperature
    (device_id room : string) (t : Thermostat.t) :
  Thermostat.update_temp_color (Thermostat.init device_id room)
  = Thermostat.init device_id room
  /\ Thermostat.update_temp_color (Thermostat.update_current_temp t)
     = Thermostat.update_current_temp t
  /\ (forall x, Thermostat.update_temp_color t = t ->
                Thermostat.update_temp_color (Thermostat.set_temperature x t)
                = Thermostat.set_temperature x t)
  /\ (forall m, Thermostat.update_temp_color t = t ->
                Thermostat.update_temp_color (Thermostat.set_mode m t)
                = Thermostat.set_mode m t)
  /\ Thermostat.update_current_temp t
     = Thermostat.set_color
         (SmartDevice.color
            (Thermostat.base (Thermostat.update_current_temp t)))
         (Thermostat.with_temperature
            (Thermostat.temperature (Thermostat.update_current_temp t)) t).
Proof.
  split; [| split; [| split; [| split]]].
  - unfold Thermostat.init. apply update_temp_color_idempotent.
  - unfold Thermostat.update_current_temp.
    apply update_temp_color_idempotent.
  - intros x H. destruct t as [[i s ty r c] temp tgt md hum].
    unfold Thermostat.update_temp_color, Thermostat.set_temperature,
      Thermostat.set_color, Thermostat.with_base,
      SmartDevice.set_color, SmartDevice.set_status in *.
    cbn [Thermostat.temperature Thermostat.base Thermostat.target_temp
         Thermostat.mode Thermostat.humidity SmartDevice.set_color
         SmartDevice.set_status SmartDevice.device_id SmartDevice.status
         SmartDevice.device_type SmartDevice.room SmartDevice.color] in *.
    case_guards; cbv beta iota in H; injection H as H;
      rewrite <- H; reflexivity.
  - intros m H. unfold Thermostat.set_mode.
    destruct (existsb (String.eqb m) ["heat"; "cool"; "auto"]);
      [| exact H].
    destruct t as [[i s ty r c] temp tgt md hum].
    unfold Thermostat.update_temp_color, Thermostat.set_color,
      Thermostat.with_base, SmartDevice.set_color in *.
    cbn [Thermostat.temperature Thermostat.base Thermostat.target_temp
         Thermostat.mode Thermostat.humidity SmartDevice.set_color
         SmartDevice.device_id SmartDevice.status
         SmartDevice.device_type SmartDevice.room SmartDevice.color] in *.
    case_guards; cbv beta iota in H; injection H as H;
      rewrite <- H; reflexivity.
  - unfold Thermostat.update_current_temp, Thermostat.update_temp_color.
    case_guards; reflexivity.
Qed.

Lemma thermostat_colour_follows_temperature_witness :
  Thermostat.update_temp_color living_room_thermostat = living_room_thermostat
  /\ Thermostat.update_temp_color
       (Thermostat.set_temperature (PyInt 30) living_room_thermostat)
     = Thermostat.set_temperature (PyInt 30) living_room_thermostat
  /\ Thermostat.update_temp_color
       (Thermostat.set_mode "auto" living_room_thermostat)
     = Thermostat.set_mode "auto" living_room_thermostat.
Proof.
  pose proof (thermostat_colour_follows_temperature
                "Living Room Thermostat" "Living Room" living_room_thermostat)
    as (Hinit & _ & Hset & Hmode & _).
  split; [exact Hinit | split].
  - exact (Hset (PyInt 30) Hinit).
  - exact (Hmode "auto" Hinit).
Defined.

(** ** Thermostats: many ticks *)

Local Open Scope Q_scope.

(** X5.  When the current temperature is [k0] half degrees and the target
    [k0 + k] (or [k0 - k]) half degrees, both of magnitude below [2^52],
    [n] ticks bring the temperature to [k0 + min n k] (or [k0 - min n k])
    half degrees; so from the [k]-th tick on the temperature equals the
    target. *)
Theorem ticks_reach_target_on_half_degree_grid
    (k0 : Z) (k n : nat) (t : Thermostat.t) :
  is_half_degrees (Thermostat.temperature t) k0 ->
  let G := num_val (Thermostat.target_temp t) in
  let Tn := num_val (Thermostat.temperature (ticks n t)) in
  (is_half_degrees (Thermostat.target_temp t) (k0 + Z.of_nat k) ->
     Tn == inject_Z (k0 + Z.of_nat (Nat.min n k)) * (1 # 2)
     /\ ((k <= n)%nat -> Tn == G))
  /\ (is_half_degrees (Thermostat.target_temp t) (k0 - Z.of_nat k) ->
      Tn == inject_Z (k0 - Z.of_nat (Nat.min n k)) * (1 # 2)
      /\ ((k <= n)%nat -> Tn == G)).
Proof.
  intros (Hk0 & HT). cbv zeta. split; intros (Hk & HG).
  - pose proof (ticks_heating n k0 k t HT Hk0 Hk HG) as Hn.
    split; [exact Hn |].
    intros Hle. rewrite Hn, HG, Nat.min_r by assumption. reflexivity.
  - pose proof (ticks_cooling n k0 k t HT Hk0 Hk HG) as Hn.
    split; [exact Hn |].
    intros Hle. rewrite Hn, HG, Nat.min_r by assumption. reflexivity.
Qed.

Lemma ticks_reach_target_on_half_degree_grid_witness :
  (is_half_degrees (Thermostat.temperature thermostat_20_to_22) 40
   /\ is_half_degrees (Thermostat.target_temp thermostat_20_to_22)
                      (40 + Z.of_nat 4)
   /\ num_val (Thermostat.temperature (ticks 3 thermostat_20_to_22)) == 43 # 2
   /\ num_val (Thermostat.temperature (ticks 6 thermostat_20_to_22)) == 22)
  /\ (is_half_degrees (Thermostat.temperature thermostat_20_to_18) 40
      /\ is_half_degrees (Thermostat.target_temp thermostat_20_to_18)
                         (40 - Z.of_nat 4)
      /\ num_val (Thermostat.temperature (ticks 1 thermostat_20_to_18))
         == 39 # 2
      /\ num_val (Thermostat.temperature (ticks 4 thermostat_20_to_18)) == 18).
Proof.
  assert (T22 : is_half_degrees (Thermostat.temperature thermostat_20_to_22)
                                40) by (split; reflexivity).
  assert (G22 : is_half_degrees (Thermostat.target_temp thermostat_20_to_22)
                                (40 + Z.of_nat 4)) by (split; reflexivity).
  assert (T18 : is_half_degrees (Thermostat.temperature thermostat_20_to_18)
                                40) by (split; reflexivity).
  assert (G18 : is_half_degrees (Thermostat.target_temp thermostat_20_to_18)
                                (40 - Z.of_nat 4)) by (split; reflexivity).
  split; (split; [assumption | split; [assumption | split]]).
  - exact (proj1 (proj1 (ticks_reach_target_on_half_degree_grid
                           40 4 3 thermostat_20_to_22 T22) G22)).
  - apply (proj2 (proj1 (ticks_reach_target_on_half_degree_grid
                           40 4 6 thermostat_20_to_22 T22) G22)). lia.
  - exact (proj1 (proj2 (ticks_reach_target_on_half_degree_grid
                           40 4 1 thermostat_20_to_18 T18) G18)).
  - apply (proj2 (proj2 (ticks_reach_target_on_half_degree_grid
                           40 4 4 thermostat_20_to_18 T18) G18)). lia.
Defined.

(** With the target strictly between [j] and [j + 1] half degrees, a
    thermostat on one of the two stays on the two: it steps up from the
    lower and down from the upper. *)
Lemma ticks_between_half_degrees (n : nat) (j : Z) :
  (Z.abs j <= 2 ^ 53)%Z -> (Z.abs (j + 1) <= 2 ^ 53)%Z ->
  forall t : Thermostat.t,
    inject_Z j * (1 # 2) < num_val (Thermostat.target_temp t) ->
    num_val (Thermostat.target_temp t) < inject_Z (j + 1) * (1 # 2) ->
    num_val (Thermostat.temperature t) == inject_Z j * (1 # 2)
    \/ num_val (Thermostat.temperature t) == inject_Z (j + 1) * (1 # 2) ->
    num_val (Thermostat.temperature (ticks n t)) == inject_Z j * (1 # 2)
    \/ num_val (Thermostat.temperature (ticks n t))
       == inject_Z (j + 1) * (1 # 2).
Proof.
  intros Hj Hj1. induction n as [| n IH]; intros t Hlo Hhi Hon;
    [exact Hon |].
  cbn [ticks]. apply IH; rewrite ?update_current_temp_target;
    try assumption.
  destruct Hon as [HT | HT].
  - right. apply update_current_temp_step_up; try assumption.
    now rewrite HT.
  - left.
    assert (Hj' : (Z.abs (j + 1 - 1) <= 2 ^ 53)%Z) by lia.
    assert (Hgt : num_val (Thermostat.target_temp t)
                  < num_val (Thermostat.temperature t)) by (now rewrite HT).
    pose proof (update_current_temp_step_down t (j + 1) HT Hj1 Hj' Hgt) as H.
    replace (j + 1 - 1)%Z with j in H by lia. exact H.
Qed.

(** X6.  When the current temperature is a whole number of half degrees
    (of magnitude below [2^52]) and differs from the target by less than
    half a degree without being equal to it, no number of ticks brings it
    to the target: after every tick it is again off by less than half a
    degree, on one side or the other. *)
Theorem off_grid_target_never_reached
    (n : nat) (t : Thermostat.t) (k : Z) :
  is_half_degrees (Thermostat.temperature t) k ->
  let T := num_val (Thermostat.temperature t) in
  let G := num_val (Thermostat.target_temp t) in
  let Tn := num_val (Thermostat.temperature (ticks n t)) in
  G - (1 # 2) < T -> T < G + (1 # 2) -> ~ T == G ->
  G - (1 # 2) < Tn /\ Tn < G + (1 # 2) /\ ~ Tn == G.
Proof.
  intros (Hk & HT). cbv zeta. intros Hlo Hhi Hne.
  destruct (Q_dec (num_val (Thermostat.temperature t))
                  (num_val (Thermostat.target_temp t))) as [[Hlt | Hgt] | Heq];
    [| | contradiction].
  - assert (Hb : inject_Z k * (1 # 2) < num_val (Thermostat.target_temp t)
                 /\ num_val (Thermostat.target_temp t)
                    < inject_Z (k + 1) * (1 # 2)).
    { rewrite half_degrees_succ, <- HT. split; lra. }
    destruct (ticks_between_half_degrees n k ltac:(lia) ltac:(lia) t
                (proj1 Hb) (proj2 Hb) (or_introl HT)) as [Hn | Hn];
      rewrite Hn; rewrite half_degrees_succ in *; rewrite <- HT in *;
      repeat split; lra.
  - assert (Hb : inject_Z (k - 1) * (1 # 2)
                 < num_val (Thermostat.target_temp t)
                 /\ num_val (Thermostat.target_temp t)
                    < inject_Z (k - 1 + 1) * (1 # 2)).
    { replace (k - 1 + 1)%Z with k by lia.
      rewrite half_degrees_pred, <- HT. split; lra. }
    assert (HT' : num_val (Thermostat.temperature t)
                  == inject_Z (k - 1 + 1) * (1 # 2))
      by (replace (k - 1 + 1)%Z with k by lia; exact HT).
    destruct (ticks_between_half_degrees n (k - 1) ltac:(lia) ltac:(lia) t
                (proj1 Hb) (proj2 Hb) (or_intror HT')) as [Hn | Hn];
      rewrite Hn; replace (k - 1 + 1)%Z with k in * by lia;
      rewrite ?half_degrees_pred in *; rewrite <- HT in *;
      repeat split; lra.
Qed.

Lemma off_grid_target_never_reached_witness :
  is_half_degrees (Thermostat.temperature thermostat_20_to_20_25) 40
  /\ ~ num_val (Thermostat.temperature (ticks 7 thermostat_20_to_20_25))
       == num_val (Thermostat.target_temp thermostat_20_to_20_25).
Proof.
  assert (Hgrid : is_half_degrees
                    (Thermostat.temperature thermostat_20_to_20_25) 40)
    by (split; reflexivity).
  assert (Hlo : num_val (Thermostat.target_temp thermostat_20_to_20_25)
                - (1 # 2)
                < num_val (Thermostat.temperature thermostat_20_to_20_25))
    by reflexivity.
  assert (Hhi : num_val (Thermostat.temperature thermostat_20_to_20_25)
                < num_val (Thermostat.target_temp thermostat_20_to_20_25)
                  + (1 # 2))
    by reflexivity.
  assert (Hne : ~ num_val (Thermostat.temperature thermostat_20_to_20_25)
                  == num_val (Thermostat.target_temp thermostat_20_to_20_25))
    by (vm_compute; discriminate).
  split; [exact Hgrid |].
  exact (proj2 (proj2 (off_grid_target_never_reached 7
                         thermostat_20_to_20_25 40 Hgrid Hlo Hhi Hne))).
Defined.

Local Close Scope Q_scope.

(** ** Cameras *)

(** X7.  A camera that is off never starts recording: [start_recording]
    returns it as it was, and the dashboard's recording button can only
    stop a recording.  Switching a camera off does not stop its recording:
    the flag stays set while the summary reads [OFF]. *)
Theorem off_camera_never_starts_recording (c : SecurityCamera.t) :
  (SmartDevice.status (SecurityCamera.base c) = false ->
     SecurityCamera.start_recording c = c
     /\ SecurityCamera.recording (toggle_recording c) = false)
  /\ (SmartDevice.status (SecurityCamera.base c) = true ->
      let c' := snd (camera_toggle_status (SecurityCamera.start_recording c)) in
      SmartDevice.status (SecurityCamera.base c') = false
      /\ SecurityCamera.recording c' = true
      /\ SecurityCamera.get_details c' = off_summary (Camera c)).
Proof.
  split; intros Hs.
  - unfold toggle_recording, SecurityCamera.start_recording.
    rewrite Hs. split; [reflexivity |].
    now destruct (SecurityCamera.recording c) eqn:E.
  - cbv zeta.
    unfold camera_toggle_status, SecurityCamera.start_recording,
      SecurityCamera.get_details, off_summary.
    rewrite Hs. cbn. rewrite Hs. cbn. repeat split.
Qed.

Lemma off_camera_never_starts_recording_witness :
  (SmartDevice.status
     (SecurityCamera.base (SecurityCamera.init "Front Door Camera" "Entrance"))
   = false
   /\ SecurityCamera.recording
        (toggle_recording (SecurityCamera.init "Front Door Camera" "Entrance"))
      = false)
  /\ (SmartDevice.status (SecurityCamera.base front_camera) = true
      /\ SecurityCamera.recording
           (snd (camera_toggle_status
                   (SecurityCamera.start_recording front_camera))) = true).
Proof.
  split; (split; [reflexivity |]).
  - exact (proj2 (proj1 (off_camera_never_starts_recording
                           (SecurityCamera.init "Front Door Camera" "Entrance"))
                        eq_refl)).
  - exact (proj1 (proj2 (proj2 (off_camera_never_starts_recording front_camera)
                               eq_refl))).
Defined.

(** ** Doors: lock and leaf are independent *)

(** X8.  Locking does not close a door.  An unlocked door that is opened
    and then locked is locked and open; [open_door] on it is refused, the
    dashboard's door button closes it without a warning, and pressing the
    button again only raises the warning and leaves the door closed. *)
Theorem locking_does_not_close_the_door (d : SmartDoor.t) :
  SmartDoor.locked d = false ->
  let d1 := snd (SmartDoor.toggle_lock (snd (SmartDoor.open_door d))) in
  let d2 := snd (toggle_door d1) in
  SmartDoor.locked d1 = true
  /\ SmartDoor.door_open d1 = true
  /\ SmartDoor.open_door d1 = (false, d1)
  /\ toggle_door d1 = (false, SmartDoor.set_door_open false d1)
  /\ toggle_door d2 = (true, d2)
  /\ SmartDoor.door_open d2 = false.
Proof.
  destruct d as [b l o]. cbn [SmartDoor.locked]. intros ->. cbv zeta.
  unfold toggle_door, SmartDoor.toggle_lock, SmartDoor.open_door,
    SmartDoor.close_door.
  cbn. repeat split.
Qed.

Lemma locking_does_not_close_the_door_witness :
  SmartDoor.locked unlocked_front_door = false
  /\ SmartDoor.locked
       (snd (SmartDoor.toggle_lock
               (snd (SmartDoor.open_door unlocked_front_door)))) = true
  /\ SmartDoor.door_open
       (snd (SmartDoor.toggle_lock
               (snd (SmartDoor.open_door unlocked_front_door)))) = true.
Proof.
  split; [reflexivity |].
  pose proof (locking_does_not_close_the_door unlocked_front_door eq_refl)
    as (H1 & H2 & _).
  exact (conj H1 H2).
Defined.

(** ** Windows and fans: the clamping setters *)

(** X9.  [set_open_percentage] stores the percentage clamped into
    [0, 100] and sets the on flag to "stored percentage above 0"; the
    blinds are not touched. *)
Theorem set_open_percentage_clamps (p : Z) (w : SmartWindow.t) :
  let w' := SmartWindow.set_open_percentage p w in
  SmartWindow.open_percentage w' = clamp 0 100 p
  /\ 0 <= SmartWindow.open_percentage w' <= 100
  /\ SmartDevice.status (SmartWindow.base w')
     = (SmartWindow.open_percentage w' >? 0)
  /\ SmartWindow.blinds_percentage w' = SmartWindow.blinds_percentage w
  /\ identity (Window w') = identity (Window w).
Proof.
  cbv zeta. unfold SmartWindow.set_open_percentage.
  cbn [SmartWindow.open_percentage].
  destruct (clamp 0 100 p >? 0) eqn:E; cbn; rewrite E;
    (repeat split; unfold clamp; lia).
Qed.

Local Open Scope Q_scope.



Local Close Scope Q_scope.

(** X11.  [set_speed] stores the speed clamped into [0, 3] and sets the on
    flag to "stored speed above 0"; oscillation and timer are not
    touched. *)
Theorem set_speed_clamps (s : Z) (f : SmartFan.t) :
  let f' := SmartFan.set_speed s f in
  SmartFan.speed f' = clamp 0 3 s
  /\ 0 <= SmartFan.speed f' <= 3
  /\ SmartDevice.status (SmartFan.base f') = (SmartFan.speed f' >? 0)
  /\ SmartFan.oscillating f' = SmartFan.oscillating f
  /\ SmartFan.timer f' = SmartFan.timer f
  /\ identity (Fan f') = identity (Fan f).
Proof.
  cbv zeta. unfold SmartFan.set_speed. cbn [SmartFan.speed].
  destruct (clamp 0 3 s >? 0) eqn:E; cbn; rewrite E;
    (repeat split; unfold clamp; lia).
Qed.

Lemma speed_labels_some_iff (s : Z) :
  SmartFan.speed_labels s <> None <-> 1 <= s <= 3.
Proof.
  unfold SmartFan.speed_labels.
  destruct (Z.eqb_spec s 1); [split; [lia | discriminate] |].
  destruct (Z.eqb_spec s 2); [split; [lia | discriminate] |].
  destruct (Z.eqb_spec s 3); [split; [lia | discriminate] |].
  split; [congruence | lia].
Qed.

(** X12.  [get_details] of a fan fails (on the lookup in [speed_labels])
    exactly when the fan is on with a speed outside 0..3; it never fails
    right after [set_speed].  A fan whose speed is 0 reports [OFF] even
    when its on flag is set. *)
Theorem fan_get_details_fails_iff (f : SmartFan.t) :
  (SmartFan.get_details f = None
   <-> SmartDevice.status (SmartFan.base f) = true
       /\ (SmartFan.speed f < 0 \/ 3 < SmartFan.speed f))
  /\ (forall s, SmartFan.get_details (SmartFan.set_speed s f) <> None)
  /\ (SmartFan.speed f = 0 ->
      SmartFan.get_details f = Some (off_summary (Fan f))).
Proof.
  assert (Hiff : SmartFan.get_details f = None
                 <-> SmartDevice.status (SmartFan.base f) = true
                     /\ (SmartFan.speed f < 0 \/ 3 < SmartFan.speed f)).
  { unfold SmartFan.get_details.
    pose proof (speed_labels_some_iff (SmartFan.speed f)) as Hl.
    destruct (SmartDevice.status (SmartFan.base f)); cbn [negb orb].
    - destruct (Z.eqb_spec (SmartFan.speed f) 0) as [E | E].
      + split; [discriminate | lia].
      + destruct (SmartFan.speed_labels (SmartFan.speed f)).
        * split; [discriminate |].
          intros (_ & Hout).
          assert (1 <= SmartFan.speed f <= 3) by (apply Hl; discriminate).
          lia.
        * split; [| reflexivity]. intros _. split; [reflexivity |].
          assert (~ 1 <= SmartFan.speed f <= 3) by (rewrite <- Hl; auto).
          lia.
    - split; [discriminate | intros (? & _); discriminate]. }
  split; [exact Hiff | split].
  - intros s Hnone.
    assert (Hr : 0 <= SmartFan.speed (SmartFan.set_speed s f) <= 3).
    { unfold SmartFan.set_speed. cbn [SmartFan.speed].
      destruct (clamp 0 3 s >? 0); cbn; unfold clamp; lia. }
    unfold SmartFan.get_details in Hnone.
    pose proof (speed_labels_some_iff
                  (SmartFan.speed (SmartFan.set_speed s f))) as Hl.
    destruct (negb (SmartDevice.status
                      (SmartFan.base (SmartFan.set_speed s f)))
              || (SmartFan.speed (SmartFan.set_speed s f) =? 0)) eqn:E;
      [discriminate |].
    apply orb_false_iff in E as (_ & E). apply Z.eqb_neq in E.
    destruct (SmartFan.speed_labels
                (SmartFan.speed (SmartFan.set_speed s f)));
      [discriminate |].
    assert (~ 1 <= SmartFan.speed (SmartFan.set_speed s f) <= 3)
      by (rewrite <- Hl; auto).
    lia.
  - intros H0. unfold SmartFan.get_details. rewrite H0.
    cbn [Z.eqb]. now rewrite orb_true_r.
Qed.

Lemma fan_get_details_fails_iff_witness :
  SmartFan.speed (snd (fan_toggle_status
                         (SmartFan.init "Living Room Fan" "Living Room"))) = 0
  /\ SmartDevice.status
       (SmartFan.base (snd (fan_toggle_status
                              (SmartFan.init "Living Room Fan"
                                             "Living Room")))) = true
  /\ SmartFan.get_details
       (snd (fan_toggle_status (SmartFan.init "Living Room Fan" "Living Room")))
     = Some "Living Room Fan (Living Room): OFF".
Proof.
  split; [reflexivity | split; [reflexivity |]].
  exact (proj2 (proj2 (fan_get_details_fails_iff
                         (snd (fan_toggle_status
                                 (SmartFan.init "Living Room Fan"
                                                "Living Room")))))
               eq_refl).
Defined.

(** X13.  [toggle_oscillation] does nothing to a fan that is off and
    reports the flag as it stands; on a fan that is on it flips the flag,
    reports the new value, and a second call restores the fan. *)
Theorem toggle_oscillation_needs_power (f : SmartFan.t) :
  (SmartDevice.status (SmartFan.base f) = false ->
     SmartFan.toggle_oscillation f = (SmartFan.oscillating f, f))
  /\ (SmartDevice.status (SmartFan.base f) = true ->
      fst (SmartFan.toggle_oscillation f) = negb (SmartFan.oscillating f)
      /\ SmartFan.oscillating (snd (SmartFan.toggle_oscillation f))
         = negb (SmartFan.oscillating f)
      /\ snd (SmartFan.toggle_oscillation
                (snd (SmartFan.toggle_oscillation f))) = f).
Proof.
  destruct f as [b sp osc tm]. cbn [SmartFan.base SmartFan.oscillating].
  split; intros Hs; unfold SmartFan.toggle_oscillation; cbn; rewrite Hs;
    cbn; [reflexivity |].
  rewrite Hs. cbn. rewrite negb_involutive. repeat split.
Qed.

Lemma toggle_oscillation_needs_power_witness :
  (SmartDevice.status
     (SmartFan.base (SmartFan.init "Bedroom Fan" "Bedroom")) = false
   /\ SmartFan.toggle_oscillation (SmartFan.init "Bedroom Fan" "Bedroom")
      = (false, SmartFan.init "Bedroom Fan" "Bedroom"))
  /\ (SmartDevice.status
        (SmartFan.base
           (SmartFan.set_speed 2 (SmartFan.init "Bedroom Fan" "Bedroom")))
      = true
      /\ fst (SmartFan.toggle_oscillation
                (SmartFan.set_speed 2 (SmartFan.init "Bedroom Fan" "Bedroom")))
         = true).
Proof.
  split; (split; [reflexivity |]).
  - exact (proj1 (toggle_oscillation_needs_power
                    (SmartFan.init "Bedroom Fan" "Bedroom")) eq_refl).
  - exact (proj1 (proj2 (toggle_oscillation_needs_power
                           (SmartFan.set_speed 2
                              (SmartFan.init "Bedroom Fan" "Bedroom")))
                        eq_refl)).
Defined.

(** ** The registry: adding, finding and removing devices *)

Lemma find_snoc {A : Type} (f : A -> bool) (l : list A) (x : A) :
  find f (l ++ [x])%list
  = match find f l with
    | Some y => Some y
    | None => if f x then Some x else None
    end.
Proof.
  induction l as [| a l IH]; cbn; [reflexivity |].
  destruct (f a); [reflexivity | exact IH].
Qed.

Lemma find_filter_other {A : Type} (f g : A -> bool) (l : list A) :
  (forall a, f a = true -> g a = true) ->
  find f (filter g l) = find f l.
Proof.
  intros Hfg. induction l as [| a l IH]; cbn; [reflexivity |].
  destruct (g a) eqn:Eg; cbn.
  - destruct (f a); [reflexivity | exact IH].
  - destruct (f a) eqn:Ef; [| exact IH].
    rewrite (Hfg a Ef) in Eg. discriminate.
Qed.

Lemma filter_all {A : Type} (g : A -> bool) (l : list A) :
  (forall a, In a l -> g a = true) -> filter g l = l.
Proof.
  induction l as [| a l IH]; cbn; intros H; [reflexivity |].
  rewrite (H a (or_introl eq_refl)), IH; auto.
Qed.

(** X14.  [get_device_by_id] returns the first device of the registry
    with the given id, and [None] when there is none.  [add_device] does
    not check ids: after adding a device whose id is already present, the
    look-up still answers the earlier device. *)
Theorem get_device_by_id_after_add_device
    (device : Device) (device_id : string) (system : AutomationSystem.t) :
  AutomationSystem.get_device_by_id device_id
    (AutomationSystem.add_device device system)
  = match AutomationSystem.get_device_by_id device_id system with
    | Some earlier => Some earlier
    | None =>
        if String.eqb (SmartDevice.device_id (device_base device)) device_id
        then Some device else None
    end
  /\ (forall d, AutomationSystem.get_device_by_id device_id system = Some d ->
                In d (AutomationSystem.devices system)
                /\ SmartDevice.device_id (device_base d) = device_id)
  /\ (AutomationSystem.get_device_by_id device_id system = None
      <-> forall d, In d (AutomationSystem.devices system) ->
                    SmartDevice.device_id (device_base d) <> device_id).
Proof.
  unfold AutomationSystem.get_device_by_id, AutomationSystem.add_device.
  cbn [AutomationSystem.devices AutomationSystem.with_devices].
  split; [| split].
  - exact (find_snoc
             (fun d => String.eqb (SmartDevice.device_id (device_base d))
                                  device_id)
             (AutomationSystem.devices system) device).
  - intros d H. apply find_some in H as (Hin & Heq).
    apply String.eqb_eq in Heq. auto.
  - split.
    + intros H d Hin Heq.
      pose proof (find_none _ _ H d Hin) as Hf. cbn in Hf.
      apply String.eqb_neq in Hf. contradiction.
    + intros H.
      destruct (find _ (AutomationSystem.devices system)) as [d |] eqn:E;
        [| reflexivity].
      apply find_some in E as (Hin & Heq). apply String.eqb_eq in Heq.
      destruct (H d Hin Heq).
Qed.

Lemma get_device_by_id_after_add_device_witness :
  AutomationSystem.get_device_by_id "Front Door" default_system
  = Some (Door front_door)
  /\ AutomationSystem.get_device_by_id "Front Door"
       (AutomationSystem.add_device (Door enabled_front_door) default_system)
     = Some (Door front_door)
  /\ SmartDevice.device_id (device_base (Door front_door)) = "Front Door".
Proof.
  assert (H : AutomationSystem.get_device_by_id "Front Door" default_system
              = Some (Door front_door)) by reflexivity.
  pose proof (get_device_by_id_after_add_device (Door enabled_front_door)
                "Front Door" default_system) as (Hadd & Hfound & _).
  split; [exact H | split].
  - rewrite Hadd, H. reflexivity.
  - exact (proj2 (Hfound _ H)).
Defined.

(** X15.  [remove_device] removes every device with the given id: the id
    is no longer found, every other id is found as before, and removing
    an id that is not in the registry leaves the system as it was.  Rules,
    the enabled flag and [last_execution] are not touched. *)
Theorem remove_device_then_lookup
    (device_id : string) (system : AutomationSystem.t) :
  AutomationSystem.get_device_by_id device_id
    (AutomationSystem.remove_device device_id system) = None
  /\ (forall other, other <> device_id ->
        AutomationSystem.get_device_by_id other
          (AutomationSystem.remove_device device_id system)
        = AutomationSystem.get_device_by_id other system)
  /\ (AutomationSystem.get_device_by_id device_id system = None ->
      AutomationSystem.remove_device device_id system = system)
  /\ AutomationSystem.rules (AutomationSystem.remove_device device_id system)
     = AutomationSystem.rules system
  /\ AutomationSystem.enabled (AutomationSystem.remove_device device_id system)
     = AutomationSystem.enabled system
  /\ AutomationSystem.last_execution
       (AutomationSystem.remove_device device_id system)
     = AutomationSystem.last_execution system.
Proof.
  unfold AutomationSystem.get_device_by_id, AutomationSystem.remove_device.
  cbn [AutomationSystem.devices AutomationSystem.with_devices
       AutomationSystem.rules AutomationSystem.enabled
       AutomationSystem.last_execution].
  split; [| split; [| split; [| repeat split]]].
  - destruct (find _ (filter _ _)) as [d |] eqn:E; [| reflexivity].
    apply find_some in E as (Hin & Heq).
    apply filter_In in Hin as (_ & Hne).
    rewrite Heq in Hne. discriminate.
  - intros other Hother. apply find_filter_other.
    intros d Hd. apply String.eqb_eq in Hd. apply negb_true_iff.
    apply String.eqb_neq. congruence.
  - intros Hnone. rewrite filter_all.
    + now destruct system.
    + intros d Hin. apply negb_true_iff. exact (find_none _ _ Hnone d Hin).
Qed.

Lemma remove_device_then_lookup_witness :
  AutomationSystem.get_device_by_id "Kitchen Light"
    (AutomationSystem.remove_device "Front Door" default_system)
  = AutomationSystem.get_device_by_id "Kitchen Light" default_system
  /\ AutomationSystem.get_device_by_id "Garage Door" default_system = None
  /\ AutomationSystem.remove_device "Garage Door" default_system
     = default_system.
Proof.
  pose proof (remove_device_then_lookup "Front Door" default_system)
    as (_ & Hother & _).
  pose proof (remove_device_then_lookup "Garage Door" default_system)
    as (_ & _ & Habsent & _).
  split; [apply Hother; discriminate | split; [reflexivity |]].
  exact (Habsent eq_refl).
Defined.

(** ** The system switch and the rule list *)

(** X16.  [AutomationSystem.toggle] returns the new value of the flag, two
    calls restore the system, and a pass run between the two calls of an
    enabled system does nothing, so the system is then back exactly as it
    was. *)
Theorem system_toggle_round_trip
    (clock : Clock) (system : AutomationSystem.t) (n : nat) :
  fst (AutomationSystem.toggle system)
  = negb (AutomationSystem.enabled system)
  /\ snd (AutomationSystem.toggle (snd (AutomationSystem.toggle system)))
     = system
  /\ (AutomationSystem.enabled system = true ->
      let paused := snd (AutomationSystem.toggle system) in
      AutomationSystem.execute_rules clock paused n = (paused, n)
      /\ snd (AutomationSystem.toggle
                (fst (AutomationSystem.execute_rules clock paused n)))
         = system).
Proof.
  destruct system as [ds rs en le mt].
  cbn [AutomationSystem.enabled]. split; [reflexivity | split].
  - unfold AutomationSystem.toggle. cbn. now rewrite negb_involutive.
  - intros ->. cbv zeta. split; reflexivity.
Qed.

Lemma system_toggle_round_trip_witness :
  AutomationSystem.enabled default_system = true
  /\ AutomationSystem.execute_rules sample_clock
       (snd (AutomationSystem.toggle default_system)) 3%nat
     = (snd (AutomationSystem.toggle default_system), 3%nat).
Proof.
  split; [reflexivity |].
  exact (proj1 (proj2 (proj2 (system_toggle_round_trip sample_clock
                                default_system 3%nat)) eq_refl)).
Defined.

Lemma apply_touches_only_last_triggered (clock : Clock)
    (rule : AutomationRule.t) (devices : list Device) (n : nat) :
  touched_only_in_last_triggered clock rule
    (snd (fst (fst (AutomationRule.apply clock rule devices n)))).
Proof.
  unfold touched_only_in_last_triggered, AutomationRule.apply, bind,
    time_time, ret.
  destruct (AutomationRule.enabled rule); cbn [negb]; [| cbn; auto].
  destruct (AutomationRule.condition rule devices n) as [[|] n1];
    [| cbn; auto].
  destruct (AutomationRule.action rule devices n1) as [devices' n2].
  cbn. split; [reflexivity | right; eauto].
Qed.

Lemma apply_every_rule_touches_only_last_triggered (clock : Clock)
    (rules : list AutomationRule.t) :
  forall (devices : list Device) (n : nat),
    Forall2 (touched_only_in_last_triggered clock) rules
            (fst (fst (apply_every_rule clock rules devices n))).
Proof.
  induction rules as [| rule rest IH]; intros devices n; [constructor |].
  cbn [apply_every_rule].
  pose proof (apply_touches_only_last_triggered clock rule devices n) as H.
  destruct (AutomationRule.apply clock rule devices n)
    as [[[fired rule'] devices'] n'].
  specialize (IH devices' n').
  destruct (apply_every_rule clock rest devices' n') as [[rest' ds] n''].
  constructor; assumption.
Qed.

(** X17.  A pass never adds, drops or reorders rules, and changes no
    rule's name, condition, action or enabled flag: rule by rule, the only
    difference a pass can make is a clock reading stored in
    [last_triggered].  The system's own enabled flag is kept. *)
Theorem execute_rules_keeps_rule_list
    (clock : Clock) (system : AutomationSystem.t) (n : nat) :
  let system' := fst (AutomationSystem.execute_rules clock system n) in
  Forall2 (touched_only_in_last_triggered clock)
          (AutomationSystem.rules system) (AutomationSystem.rules system')
  /\ length (AutomationSystem.rules system')
     = length (AutomationSystem.rules system)
  /\ map AutomationRule.name (AutomationSystem.rules system')
     = map AutomationRule.name (AutomationSystem.rules system)
  /\ AutomationSystem.enabled system' = AutomationSystem.enabled system.
Proof.
  cbv zeta.
  assert (H : Forall2 (touched_only_in_last_triggered clock)
                (AutomationSystem.rules system)
                (AutomationSystem.rules
                   (fst (AutomationSystem.execute_rules clock system n)))
              /\ AutomationSystem.enabled
                   (fst (AutomationSystem.execute_rules clock system n))
                 = AutomationSystem.enabled system).
  { unfold AutomationSystem.execute_rules, bind, time_time.
    destruct (AutomationSystem.enabled system) eqn:He; cbn [negb].
    - cbn [AutomationSystem.with_last_execution AutomationSystem.rules
           AutomationSystem.devices].
      rewrite run_rules_applies_every_rule.
      pose proof (apply_every_rule_touches_only_last_triggered clock
                    (AutomationSystem.rules system)
                    (AutomationSystem.devices system) (S n)) as H.
      destruct (apply_every_rule clock (AutomationSystem.rules system)
                  (AutomationSystem.devices system) (S n))
        as [[rules' devices'] n'].
      cbn. auto.
    - cbn. rewrite He. split; [| reflexivity].
      induction (AutomationSystem.rules system); constructor;
        [split; auto | assumption]. }
  destruct H as (H & He). split; [exact H | split; [| split; [| exact He]]].
  - symmetry. exact (Forall2_length H).
  - induction H as [| r r' rs rs' (Hsetup & _) _ IH]; [reflexivity |].
    cbn [map]. rewrite IH. f_equal.
    exact (f_equal (fun s => fst (fst (fst s))) Hsetup).
Qed.

Lemma execute_rules_idle_pass
    (clock : Clock) (system : AutomationSystem.t) (n : nat) :
  AutomationSystem.enabled system = true ->
  Forall (fun r => AutomationRule.enabled r = false)
         (AutomationSystem.rules system) ->
  AutomationSystem.execute_rules clock system n
  = (AutomationSystem.with_last_execution (seconds (clock n)) system, S n).
Proof.
  intros He Hall.
  assert (Hrun : forall devices m,
             AutomationSystem.run_rules clock (AutomationSystem.rules system)
               devices m
             = (AutomationSystem.rules system, devices, m)).
  { induction Hall as [| r rs Hr _ IH]; intros devices m; [reflexivity |].
    cbn [AutomationSystem.run_rules]. rewrite Hr. unfold bind.
    rewrite IH. reflexivity. }
  unfold AutomationSystem.execute_rules, bind, time_time.
  rewrite He. cbn [negb].
  cbn [AutomationSystem.with_last_execution AutomationSystem.rules
       AutomationSystem.devices].
  rewrite Hrun. now destruct system.
Qed.

(** X18.  A pass of an enabled system whose rules are all disabled (or
    that has no rule) reads the clock once, stores the reading in
    [last_execution] and changes nothing else: no device, no rule. *)
Theorem execute_rules_with_all_rules_disabled
    (clock : Clock) (system : AutomationSystem.t) (n : nat) :
  AutomationSystem.enabled system = true ->
  Forall (fun r => AutomationRule.enabled r = false)
         (AutomationSystem.rules system) ->
  AutomationSystem.execute_rules clock system n
  = (AutomationSystem.with_last_execution (seconds (clock n)) system, S n)
  /\ AutomationSystem.devices
       (fst (AutomationSystem.execute_rules clock system n))
     = AutomationSystem.devices system
  /\ AutomationSystem.rules
       (fst (AutomationSystem.execute_rules clock system n))
     = AutomationSystem.rules system.
Proof.
  intros He Hall. rewrite (execute_rules_idle_pass clock system n He Hall).
  repeat split.
Qed.

Lemma execute_rules_with_all_rules_disabled_witness :
  AutomationSystem.execute_rules sample_clock
    (AutomationSystem.add_rule (light_off_rule false)
       (AutomationSystem.add_device (Light living_room_light)
          (fst (AutomationSystem.init sample_clock 0%nat))))
    4%nat
  = (AutomationSystem.with_last_execution (seconds (sample_clock 4%nat))
       (AutomationSystem.add_rule (light_off_rule false)
          (AutomationSystem.add_device (Light living_room_light)
             (fst (AutomationSystem.init sample_clock 0%nat)))),
     5%nat).
Proof.
  apply (execute_rules_with_all_rules_disabled sample_clock); [reflexivity |].
  repeat constructor.
Defined.

(** ** The predefined rules *)

Lemma map_pointwise {A B : Type} (key : A -> B) (f : A -> A) (l : list A) :
  (forall a, key (f a) = key a) -> map key (map f l) = map key l.
Proof.
  intros H. rewrite map_map. apply map_ext. exact H.
Qed.

(** X19.  No action of the six predefined rules, and no thermostat drift,
    adds, removes or reorders devices or changes the class, the id, the
    type or the room of a device. *)
Theorem predefined_actions_keep_identities
    (target_temp : number) (devices : list Device) :
  map identity (motion_lighting_action devices) = map identity devices
  /\ map identity (temperature_control_action target_temp devices)
     = map identity devices
  /\ map identity (security_action devices) = map identity devices
  /\ map identity (energy_saving_action devices) = map identity devices
  /\ map identity (morning_routine_action devices) = map identity devices
  /\ map identity (evening_routine_action devices) = map identity devices
  /\ map identity (map drift devices) = map identity devices.
Proof.
  repeat split; apply map_pointwise; intros [l | t | c | r | w | f];
    cbv beta iota zeta; try reflexivity;
    try (case_guards; reflexivity).
  unfold drift. case_guards; [| reflexivity].
  unfold Thermostat.update_current_temp, Thermostat.update_temp_color.
  case_guards; reflexivity.
Qed.

(** X20.  With a camera that is on and reports motion in the registry, the
    Motion Lighting rule fires, stores the clock's reading and leaves every
    light on at brightness 100 with its colour temperature and colour as
    they were; every other device is untouched. *)
Theorem motion_lighting_turns_every_light_on
    (clock : Clock) (devices : list Device) (n : nat)
    (c : SecurityCamera.t) :
  In (Camera c) devices ->
  SmartDevice.status (SecurityCamera.base c) = true ->
  SecurityCamera.motion_detected c = true ->
  let '(fired, rule', devices', n') :=
    AutomationRule.apply clock create_motion_lighting_rule devices n in
  fired = true
  /\ AutomationRule.last_triggered rule' = Some (seconds (clock n))
  /\ n' = S n
  /\ forall i d, nth_error devices i = Some d ->
       match d with
       | Light l =>
           exists l',
             nth_error devices' i = Some (Light l')
             /\ SmartDevice.status (SmartLight.base l') = true
             /\ SmartLight.brightness l' = 100
             /\ SmartLight.color_temp l' = SmartLight.color_temp l
             /\ SmartDevice.color (SmartLight.base l')
                = SmartDevice.color (SmartLight.base l)
       | _ => nth_error devices' i = Some d
       end.
Proof.
  intros Hin Hon Hmotion.
  assert (Hc : motion_lighting_condition devices = true).
  { unfold motion_lighting_condition. apply existsb_exists.
    exists (Camera c). split; [assumption |]. now rewrite Hon, Hmotion. }
  rewrite (apply_condition_true clock create_motion_lighting_rule devices
             n n n (motion_lighting_action devices) eq_refl);
    [| change (ret (motion_lighting_condition devices) n = (true, n));
       now rewrite Hc
     | reflexivity].
  repeat split.
  intros i d Hi. unfold motion_lighting_action.
  rewrite nth_error_map, Hi. destruct d; cbn [option_map]; try reflexivity.
  eexists. split; [reflexivity |]. repeat split.
Qed.

Lemma motion_lighting_turns_every_light_on_witness :
  In (Camera alert_camera)
     [Camera alert_camera; Light living_room_light; Light dimmed_light]
  /\ SmartDevice.status (SecurityCamera.base alert_camera) = true
  /\ SecurityCamera.motion_detected alert_camera = true
  /\ fst (fst (fst (AutomationRule.apply sample_clock
                      create_motion_lighting_rule
                      [Camera alert_camera; Light living_room_light;
                       Light dimmed_light] 0%nat))) = true.
Proof.
  split; [now left | split; [reflexivity | split; [reflexivity |]]].
  exact (proj1 (motion_lighting_turns_every_light_on sample_clock
                  [Camera alert_camera; Light living_room_light;
                   Light dimmed_light] 0%nat alert_camera
                  (or_introl eq_refl) eq_refl eq_refl)).
Defined.

Lemma motion_lighting_condition_on_cameras (devices : list Device) :
  motion_lighting_condition devices
  = existsb SecurityCamera.motion_detected (enabled_cameras devices).
Proof.
  unfold motion_lighting_condition, enabled_cameras.
  induction devices as [| d ds IH]; [reflexivity |].
  cbn [existsb flat_map]. rewrite existsb_app, IH.
  destruct d as [l | t | c | r | w | f]; try reflexivity.
  destruct (SmartDevice.status (SecurityCamera.base c)); cbn;
    [now rewrite orb_false_r | reflexivity].
Qed.

Lemma existsb_negb_forallb {A : Type} (p : A -> bool) (l : list A) :
  existsb p l = negb (forallb (fun a => negb (p a)) l).
Proof.
  induction l as [| a l IH]; [reflexivity |].
  cbn. rewrite IH. now destruct (p a).
Qed.

(** X21.  The condition of Motion Lighting and the condition shared by Auto
    Lock and Energy Saving never hold together; exactly one of them holds
    when some camera is on, and neither when no camera is on. *)
Theorem motion_and_quiet_conditions_exclude_each_other
    (devices : list Device) :
  motion_lighting_condition devices && security_condition devices = false
  /\ motion_lighting_condition devices || security_condition devices
     = match enabled_cameras devices with
       | [] => false
       | _ :: _ => true
       end
  /\ energy_saving_condition devices = security_condition devices.
Proof.
  rewrite motion_lighting_condition_on_cameras, existsb_negb_forallb.
  unfold security_condition, energy_saving_condition.
  destruct (enabled_cameras devices) as [| c cs]; [repeat split |].
  destruct (forallb _ (c :: cs)); repeat split.
Qed.

(** X22.  The Energy Saving action leaves every light and every fan off:
    one that was on is set to brightness 0 (or speed 0) and thereby
    switched off, one that was off is untouched, and so is every other
    device. *)
Theorem energy_saving_switches_lights_and_fans_off (devices : list Device) :
  (forall d, In d (energy_saving_action devices) ->
             device_class d = LIGHT \/ device_class d = FAN ->
             is_on d = false)
  /\ (forall i d, nth_error devices i = Some d ->
        nth_error (energy_saving_action devices) i
        = Some (match d with
                | Light l =>
                    if SmartDevice.status (SmartLight.base l)
                    then Light (SmartLight.set_brightness 0 l) else d
                | Fan f =>
                    if SmartDevice.status (SmartFan.base f)
                    then Fan (SmartFan.set_speed 0 f) else d
                | _ => d
                end))
  /\ (forall l, SmartLight.brightness (SmartLight.set_brightness 0 l) = 0
                /\ SmartLight.color_temp (SmartLight.set_brightness 0 l)
                   = SmartLight.color_temp l)
  /\ (forall f, SmartFan.speed (SmartFan.set_speed 0 f) = 0
                /\ SmartFan.oscillating (SmartFan.set_speed 0 f)
                   = SmartFan.oscillating f).
Proof.
  split; [| split; [| split]].
  - intros d Hin Hclass. unfold energy_saving_action in Hin.
    apply in_map_iff in Hin as (d0 & <- & _).
    destruct d0 as [l | t | c | r | w | f]; cbn in Hclass;
      try (destruct Hclass; discriminate).
    + destruct (SmartDevice.status (SmartLight.base l)) eqn:E;
        [reflexivity | exact E].
    + destruct (SmartDevice.status (SmartFan.base f)) eqn:E;
        [reflexivity | exact E].
  - intros i d Hi. unfold energy_saving_action.
    rewrite nth_error_map, Hi. now destruct d.
  - intros l. split; reflexivity.
  - intros f. split; reflexivity.
Qed.

Lemma energy_saving_switches_lights_and_fans_off_witness :
  In (Light (SmartLight.set_brightness 0 dimmed_light))
     (energy_saving_action [Camera front_camera; Light dimmed_light])
  /\ is_on (Light dimmed_light) = true
  /\ is_on (Light (SmartLight.set_brightness 0 dimmed_light)) = false
  /\ nth_error (energy_saving_action [Camera front_camera; Light dimmed_light])
               0
     = Some (Camera front_camera).
Proof.
  assert (Hin : In (Light (SmartLight.set_brightness 0 dimmed_light))
                   (energy_saving_action
                      [Camera front_camera; Light dimmed_light]))
    by (right; left; reflexivity).
  pose proof (energy_saving_switches_lights_and_fans_off
                [Camera front_camera; Light dimmed_light])
    as (Hoff & Hat & _).
  split; [exact Hin | split; [reflexivity | split]].
  - exact (Hoff _ Hin (or_introl eq_refl)).
  - exact (Hat 0%nat (Camera front_camera) eq_refl).
Defined.

Lemma enabled_cameras_map (f : Device -> Device) (devices : list Device) :
  (forall d, match d with
             | Camera _ => f d = d
             | _ => match f d with Camera _ => False | _ => True end
             end) ->
  enabled_cameras (map f devices) = enabled_cameras devices.
Proof.
  intros Hf. unfold enabled_cameras.
  induction devices as [| d ds IH]; [reflexivity |].
  cbn [map flat_map]. rewrite IH. f_equal.
  specialize (Hf d).
  destruct d as [l | t | c | r | w | x]; try (now rewrite Hf);
    destruct (f _); (reflexivity || contradiction).
Qed.

Lemma existsb_map_pointwise {A : Type} (p : A -> bool) (f : A -> A)
    (l : list A) :
  (forall a, p (f a) = p a) -> existsb p (map f l) = existsb p l.
Proof.
  intros H. induction l as [| a l IH]; [reflexivity |].
  cbn. now rewrite H, IH.
Qed.

Lemma predefined_actions_keep_conditions
    (target_temp : number) (devices : list Device) :
  motion_lighting_condition (motion_lighting_action devices)
  = motion_lighting_condition devices
  /\ temperature_control_condition target_temp
       (temperature_control_action target_temp devices)
     = temperature_control_condition target_temp devices
  /\ security_condition (security_action devices)
     = security_condition devices
  /\ energy_saving_condition (energy_saving_action devices)
     = energy_saving_condition devices.
Proof.
  split; [| split; [| split]].
  - unfold motion_lighting_condition, motion_lighting_action.
    apply existsb_map_pointwise. now intros [l | t | c | r | w | f].
  - unfold temperature_control_condition, temperature_control_action.
    apply existsb_map_pointwise. intros [l | t | c | r | w | f];
      try reflexivity.
    destruct (SmartDevice.status (Thermostat.base t)) eqn:E;
      [reflexivity | now rewrite E].
  - unfold security_condition, security_action.
    rewrite enabled_cameras_map; [reflexivity |].
    intros [l | t | c | r | w | f]; try exact I; try reflexivity.
    now destruct (SmartDevice.status (SmartDoor.base r)).
  - unfold energy_saving_condition, energy_saving_action.
    rewrite enabled_cameras_map; [reflexivity |].
    intros [l | t | c | r | w | f]; try exact I; try reflexivity.
    + now destruct (SmartDevice.status (SmartLight.base l)).
    + now destruct (SmartDevice.status (SmartFan.base f)).
Qed.

(** X23.  None of the four registry-driven rules (Motion Lighting,
    Temperature Control, Auto Lock, Energy Saving) changes what its own
    condition reads: once such a rule has fired, applying it again to the
    registry it left fires again. *)
Theorem predefined_rule_fires_again
    (clock : Clock) (target_temp : number) (rule : AutomationRule.t)
    (devices devices' : list Device) (rule' : AutomationRule.t)
    (n n' : nat) :
  In rule [create_motion_lighting_rule;
           create_temperature_control_rule target_temp;
           create_security_rule;
           create_energy_saving_rule] ->
  AutomationRule.apply clock rule devices n = ((true, rule', devices'), n') ->
  fst (fst (fst (AutomationRule.apply clock rule' devices' n'))) = true.
Proof.
  intros Hin Hfired.
  destruct (predefined_actions_keep_conditions target_temp devices)
    as (Hm & Ht & Hs & He).
  assert (Hgen : forall name cond act,
             rule = AutomationRule.init name (fun ds => ret (cond ds))
                      (fun ds => ret (act ds)) true ->
             cond (act devices) = cond devices ->
             fst (fst (fst (AutomationRule.apply clock rule' devices' n')))
             = true).
  { intros name cond act -> Hkeep.
    unfold AutomationRule.apply, AutomationRule.init, bind, ret, time_time
      in Hfired.
    cbn in Hfired.
    destruct (cond devices) eqn:Ec; [| discriminate].
    injection Hfired as <- <- <-.
    unfold AutomationRule.apply, bind, ret, time_time. cbn.
    now rewrite Hkeep. }
  destruct Hin as [<- | [<- | [<- | [<- | []]]]].
  - exact (Hgen _ _ _ eq_refl Hm).
  - exact (Hgen _ _ _ eq_refl Ht).
  - exact (Hgen _ _ _ eq_refl Hs).
  - exact (Hgen _ _ _ eq_refl He).
Qed.

Lemma predefined_rule_fires_again_witness :
  fst (fst (fst (AutomationRule.apply sample_clock
                   (AutomationRule.set_last_triggered
                      (Some (seconds (sample_clock 0%nat)))
                      create_security_rule)
                   (security_action
                      [Camera front_camera; Door enabled_front_door])
                   1%nat))) = true.
Proof.
  exact (predefined_rule_fires_again sample_clock (PyInt 22)
           create_security_rule
           [Camera front_camera; Door enabled_front_door] _ _ 0%nat 1%nat
           (or_intror (or_intror (or_introl eq_refl))) eq_refl).
Defined.

Lemma map_idempotent {A : Type} (f : A -> A) (l : list A) :
  (forall a, f (f a) = f a) -> map f (map f l) = map f l.
Proof.
  intros H. rewrite map_map. apply map_ext. exact H.
Qed.

(** X24.  Each of the six predefined actions is idempotent: running it a
    second time on the registry it left changes no device. *)
Theorem predefined_actions_idempotent
    (target_temp : number) (devices : list Device) :
  motion_lighting_action (motion_lighting_action devices)
  = motion_lighting_action devices
  /\ temperature_control_action target_temp
       (temperature_control_action target_temp devices)
     = temperature_control_action target_temp devices
  /\ security_action (security_action devices) = security_action devices
  /\ energy_saving_action (energy_saving_action devices)
     = energy_saving_action devices
  /\ morning_routine_action (morning_routine_action devices)
     = morning_routine_action devices
  /\ evening_routine_action (evening_routine_action devices)
     = evening_routine_action devices.
Proof.
  repeat split; apply map_idempotent; intros [l | t | c | r | w | f];
    try reflexivity.
  - destruct (SmartDevice.status (Thermostat.base t)) eqn:E;
      cbn; rewrite ?E; reflexivity.
  - destruct (SmartDevice.status (SmartDoor.base r)) eqn:E;
      cbn; rewrite ?E; reflexivity.
  - destruct (SmartDevice.status (SmartLight.base l)) eqn:E;
      cbn; rewrite ?E; reflexivity.
  - destruct (SmartDevice.status (SmartFan.base f)) eqn:E;
      cbn; rewrite ?E; reflexivity.
Qed.

(** X25.  The Morning and the Evening Routine look at nothing but the
    hour of the wall clock: with the configured hour on the clock the rule
    fires on any registry (reading the clock a second time for
    [last_triggered]); at any other hour it returns [False] and leaves
    rule and registry as they were. *)
Theorem routines_fire_by_the_clock_alone
    (clock : Clock) (hour : Z) (devices : list Device) (n : nat) :
  AutomationRule.apply clock (create_morning_routine_rule clock hour)
    devices n
  = (if tm_hour (clock n) =? hour
     then ((true,
            AutomationRule.set_last_triggered
              (Some (seconds (clock (S n))))
              (create_morning_routine_rule clock hour),
            morning_routine_action devices),
           S (S n))
     else ((false, create_morning_routine_rule clock hour, devices), S n))
  /\ AutomationRule.apply clock (create_evening_routine_rule clock hour)
       devices n
     = (if tm_hour (clock n) =? hour
        then ((true,
               AutomationRule.set_last_triggered
                 (Some (seconds (clock (S n))))
                 (create_evening_routine_rule clock hour),
               evening_routine_action devices),
              S (S n))
        else ((false, create_evening_routine_rule clock hour, devices), S n)).
Proof.
  unfold AutomationRule.apply, bind, ret, time_time, localtime_tm_hour.
  cbn. split; now destruct (tm_hour (clock n) =? hour).
Qed.

Local Open Scope Q_scope.



Local Close Scope Q_scope.

(** ** The simulation loop *)

(** X27.  One iteration of the simulation loop on a paused system changes
    nothing: no rule runs, the clock is not read, and no thermostat
    drifts.  On an enabled system whose rules are all disabled the
    iteration stores the clock's reading and moves every thermostat that
    is on by one [update_current_temp]; a thermostat that is off, and
    every other device, is left as it was. *)
Theorem simulation_step_paused_or_idle
    (clock : Clock) (system : AutomationSystem.t) (n : nat) :
  (AutomationSystem.enabled system = false ->
     simulation_step clock system n = (system, n))
  /\ (AutomationSystem.enabled system = true ->
      Forall (fun r => AutomationRule.enabled r = false)
             (AutomationSystem.rules system) ->
      simulation_step clock system n
      = (AutomationSystem.with_devices
           (map drift (AutomationSystem.devices system))
           (AutomationSystem.with_last_execution (seconds (clock n)) system),
         S n)
      /\ forall i d, nth_error (AutomationSystem.devices system) i = Some d ->
           nth_error (AutomationSystem.devices
                        (fst (simulation_step clock system n))) i
           = Some (match d with
                   | Thermo t =>
                       if SmartDevice.status (Thermostat.base t)
                       then Thermo (Thermostat.update_current_temp t)
                       else d
                   | _ => d
                   end)).
Proof.
  split.
  - intros He. unfold simulation_step. now rewrite He.
  - intros He Hall.
    assert (Hstep : simulation_step clock system n
                    = (AutomationSystem.with_devices
                         (map drift (AutomationSystem.devices system))
                         (AutomationSystem.with_last_execution
                            (seconds (clock n)) system),
                       S n)).
    { unfold simulation_step, bind. rewrite He.
      now rewrite (execute_rules_idle_pass clock system n He Hall). }
    split; [exact Hstep |].
    intros i d Hi. rewrite Hstep.
    cbn [fst AutomationSystem.devices AutomationSystem.with_devices].
    rewrite nth_error_map, Hi. reflexivity.
Qed.

Lemma simulation_step_paused_or_idle_witness :
  (AutomationSystem.enabled (snd (AutomationSystem.toggle default_system))
   = false
   /\ simulation_step sample_clock
        (snd (AutomationSystem.toggle default_system)) 2%nat
      = (snd (AutomationSystem.toggle default_system), 2%nat))
  /\ (nth_error
        (AutomationSystem.devices
           (fst (simulation_step sample_clock
                   (AutomationSystem.add_rule (light_off_rule false)
                      (AutomationSystem.add_device (Thermo thermostat_20_to_22)
                         (fst (AutomationSystem.init sample_clock 0%nat))))
                   2%nat))) 0
      = Some (Thermo (Thermostat.update_current_temp thermostat_20_to_22))).
Proof.
  split.
  - split; [reflexivity |].
    exact (proj1 (simulation_step_paused_or_idle sample_clock
                    (snd (AutomationSystem.toggle default_system)) 2%nat)
                 eq_refl).
  - assert (Hall : Forall (fun r => AutomationRule.enabled r = false)
                     (AutomationSystem.rules
                        (AutomationSystem.add_rule (light_off_rule false)
                           (AutomationSystem.add_device
                              (Thermo thermostat_20_to_22)
                              (fst (AutomationSystem.init sample_clock
                                      0%nat))))))
      by (repeat constructor).
    exact (proj2 (proj2 (simulation_step_paused_or_idle sample_clock
                           (AutomationSystem.add_rule (light_off_rule false)
                              (AutomationSystem.add_device
                                 (Thermo thermostat_20_to_22)
                                 (fst (AutomationSystem.init sample_clock
                                         0%nat))))
                           2%nat)
                        eq_refl Hall)
                 0%nat (Thermo thermostat_20_to_22) eq_refl).
Defined.

(** ** Temperature Control *)

Local Open Scope Q_scope.




Local Close Scope Q_scope.

(** ** Building the system *)

Lemma add_devices_in_order (devices : list Device) :
  forall system : AutomationSystem.t,
    fold_left (fun system device => AutomationSystem.add_device device system)
              devices system
    = AutomationSystem.with_devices
        (AutomationSystem.devices system ++ devices)%list system.
Proof.
  induction devices as [| d ds IH]; intros system.
  - cbn [fold_left]. rewrite app_nil_r. now destruct system.
  - cbn [fold_left]. rewrite IH. unfold AutomationSystem.add_device.
    cbn [AutomationSystem.devices AutomationSystem.with_devices].
    rewrite <- app_assoc. reflexivity.
Qed.

(** X29.  [create_automation_system] reads the clock once, registers the
    given devices in the given order (whatever they are, duplicates
    included) and the six rules in the order Motion Lighting, Temperature
    Control, Auto Lock, Energy Saving, Morning Routine, Evening Routine,
    every rule enabled and never triggered, in an enabled system. *)
Theorem create_automation_system_registers_in_order
    (clock : Clock) (devices : list Device) (n : nat) :
  let system := fst (create_automation_system clock devices n) in
  snd (create_automation_system clock devices n) = S n
  /\ AutomationSystem.devices system = devices
  /\ map AutomationRule.name (AutomationSystem.rules system)
     = ["Motion Lighting"; "Temperature Control"; "Auto Lock";
        "Energy Saving"; "Morning Routine"; "Evening Routine"]
  /\ Forall (fun r => AutomationRule.enabled r = true
                      /\ AutomationRule.last_triggered r = None)
            (AutomationSystem.rules system)
  /\ AutomationSystem.enabled system = true
  /\ AutomationSystem.last_execution system = seconds (clock n).
Proof.
  cbv zeta. unfold create_automation_system, AutomationSystem.init, bind,
    time_time, ret.
  rewrite add_devices_in_order. cbn. repeat split.
  repeat constructor.
Qed.

(** ** Adding and removing rules *)

(** X30.  [remove_rule] drops every rule with the given name and keeps the
    others in order, so no rule of that name is left; it does not touch the
    devices.  Removing the name of a rule that was just added to a system
    holding no rule of that name gives the system back. *)
Theorem remove_rule_after_add_rule
    (rule : AutomationRule.t) (rule_name : string)
    (system : AutomationSystem.t) :
  map AutomationRule.name
      (AutomationSystem.rules (AutomationSystem.remove_rule rule_name system))
  = filter (fun name => negb (String.eqb name rule_name))
           (map AutomationRule.name (AutomationSystem.rules system))
  /\ ~ In rule_name
          (map AutomationRule.name
               (AutomationSystem.rules
                  (AutomationSystem.remove_rule rule_name system)))
  /\ AutomationSystem.devices (AutomationSystem.remove_rule rule_name system)
     = AutomationSystem.devices system
  /\ ((forall r, In r (AutomationSystem.rules system) ->
                 AutomationRule.name r <> AutomationRule.name rule) ->
      AutomationSystem.remove_rule (AutomationRule.name rule)
        (AutomationSystem.add_rule rule system)
      = system).
Proof.
  unfold AutomationSystem.remove_rule, AutomationSystem.add_rule.
  cbn [AutomationSystem.rules AutomationSystem.with_rules
       AutomationSystem.devices].
  assert (Hnames : map AutomationRule.name
                     (filter (fun r => negb (String.eqb (AutomationRule.name r)
                                                        rule_name))
                             (AutomationSystem.rules system))
                   = filter (fun name => negb (String.eqb name rule_name))
                            (map AutomationRule.name
                                 (AutomationSystem.rules system))).
  { induction (AutomationSystem.rules system) as [| r rs IH];
      [reflexivity |].
    cbn [filter map].
    destruct (String.eqb (AutomationRule.name r) rule_name); cbn [negb];
      [exact IH | cbn [map]; now rewrite IH]. }
  split; [exact Hnames | split; [| split; [reflexivity |]]].
  - rewrite Hnames. intros Hin. apply filter_In in Hin as (_ & Hne).
    rewrite String.eqb_refl in Hne. discriminate.
  - intros Hfresh. rewrite filter_app. cbn [filter].
    rewrite String.eqb_refl. cbn [negb]. rewrite app_nil_r, filter_all.
    + now destruct system.
    + intros r Hin. apply negb_true_iff, String.eqb_neq. auto.
Qed.

Lemma remove_rule_after_add_rule_witness :
  AutomationSystem.remove_rule "Lights On"
    (AutomationSystem.add_rule (light_off_rule true) default_system)
  = default_system.
Proof.
  apply (proj2 (proj2 (proj2 (remove_rule_after_add_rule
                                (light_off_rule true) "Lights On"
                                default_system)))).
  intros r Hin. cbn in Hin.
  repeat (destruct Hin as [<- | Hin]; [discriminate |]).
  destruct Hin.
Defined.
